(** * OpenSCAD MCP server: the scratchpad tools of [main.py]

    A shallow embedding of the five tools of [main.py]
    ([show_openscad_script], [create_openscad_script], [view_render],
    [export_model_to_stl], [save_openscad_script]) together with the
    properties of the render / export pipeline.

    Python values are modelled as follows.
    - [str] is a sequence of Unicode code points ([list N]); [py "..."]
      turns a literal into one.
    - [bytes] is [list byte].
    - The process state (the global [state], the file system, the calls
      to [subprocess.run], the logger) is the record [World]; what lies
      outside the program (the locale's text encoding, the external
      compiler, faults of the operating system) is the record [Env].
    - A tool is a computation in the monad [M]: a function from the
      world to a result or a raised exception, and the world after it.

    Conventions of the file system: a path is the string the program
    uses for it, and two strings name two files; the temporary file can
    always be created; a write that fails leaves the file it opened
    empty.  The file the logger appends to ([openscad_mcp.log]) is the
    [log] component of the world and is set apart from [files].  One
    tool runs at a time. *)

From Stdlib Require Import NArith Ascii String DecimalString.
From Stdlib.Strings Require Import Byte.
From Stdlib Require Import ZArith.
From stdpp Require Import base option list gmap.

Open Scope N_scope.

(** ** Python strings *)

Abbreviation str := (list N).
Abbreviation bytes := (list byte).

(** The code points of a literal. *)
Definition py (s : string) : str :=
  map N_of_ascii (list_ascii_of_string s).

(** [str.isspace] on one code point: the table of CPython's
    [_PyUnicode_IsWhitespace], which [str.strip()] uses. *)
Definition isspace (c : N) : bool :=
  ((9 <=? c) && (c <=? 13)) || ((28 <=? c) && (c <=? 32))
  || (c =? 133) || (c =? 160) || (c =? 5760)
  || ((8192 <=? c) && (c <=? 8202))
  || (c =? 8232) || (c =? 8233) || (c =? 8239) || (c =? 8287) || (c =? 12288).

Fixpoint lstrip (s : str) : str :=
  match s with
  | [] => []
  | c :: s' => if isspace c then lstrip s' else s
  end.

Definition rstrip (s : str) : str := rev (lstrip (rev s)).

(** [s.strip()] *)
Definition strip (s : str) : str := rstrip (lstrip s).

(** Python truthiness of a string: [not s] is [is_empty s]. *)
Definition is_empty (s : str) : bool :=
  match s with [] => true | _ => false end.

(** [s.startswith(p)] *)
Fixpoint startswith (p s : str) : bool :=
  match p, s with
  | [], _ => true
  | _ :: _, [] => false
  | a :: p', b :: s' => (a =? b) && startswith p' s'
  end.

(** [s.replace(old, new)] for a non-empty [old]: the occurrences of
    [old] are found from the left and do not overlap.  [skip] counts the
    characters of a matched occurrence that are still to be dropped. *)
Fixpoint replace_from (old new : str) (skip : nat) (s : str) : str :=
  match s with
  | [] => []
  | c :: s' =>
      match skip with
      | S k => replace_from old new k s'
      | O =>
          if startswith old s
          then new ++ replace_from old new (Nat.pred (length old)) s'
          else c :: replace_from old new O s'
      end
  end.

Definition replace (old new s : str) : str := replace_from old new O s.

(** [s.split(sep)] for a one-character separator. *)
Fixpoint split (sep : N) (s : str) : list str :=
  match s with
  | [] => [[]]
  | c :: s' =>
      if c =? sep then [] :: split sep s'
      else match split sep s' with
           | hd :: tl => (c :: hd) :: tl
           | [] => [[c]]
           end
  end.

(** [sep.join(parts)] *)
Fixpoint join (sep : str) (parts : list str) : str :=
  match parts with
  | [] => []
  | [p] => p
  | p :: ps => p ++ sep ++ join sep ps
  end.

(** [str(n)] for a non-negative integer. *)
Definition str_of_nat (n : nat) : str :=
  py (NilEmpty.string_of_uint (Nat.to_uint n)).

(** [needle in haystack] *)
Fixpoint contains (needle hay : str) : bool :=
  startswith needle hay ||
  match hay with
  | [] => false
  | _ :: hay' => contains needle hay'
  end.

(** ** base64

    [base64.b64encode] (RFC 4648, with padding), three bytes to four
    characters, written with the shifts and masks of [binascii]. *)

Definition b64_table : str :=
  py "ABCDEFGHIJKLMNOPQRSTUVWXYZabcdefghijklmnopqrstuvwxyz0123456789+/".

Definition b64_char (i : N) : N := nth (N.to_nat i) b64_table 0.

Definition b64_pad : N := 61.

Fixpoint b64encode (data : bytes) : str :=
  match data with
  | [] => []
  | [a] =>
      let a := Byte.to_N a in
      [ b64_char (N.shiftr a 2);
        b64_char (N.shiftl (N.land a 3) 4);
        b64_pad; b64_pad ]
  | [a; b] =>
      let a := Byte.to_N a in
      let b := Byte.to_N b in
      [ b64_char (N.shiftr a 2);
        b64_char (N.lor (N.shiftl (N.land a 3) 4) (N.shiftr b 4));
        b64_char (N.shiftl (N.land b 15) 2);
        b64_pad ]
  | a :: b :: c :: rest =>
      let a := Byte.to_N a in
      let b := Byte.to_N b in
      let c := Byte.to_N c in
      b64_char (N.shiftr a 2)
      :: b64_char (N.lor (N.shiftl (N.land a 3) 4) (N.shiftr b 4))
      :: b64_char (N.lor (N.shiftl (N.land b 15) 2) (N.shiftr c 6))
      :: b64_char (N.land c 63)
      :: b64encode rest
  end.

(** The decoder a caller applies to the payload: the position of a
    character in the alphabet, and four characters back to three bytes. *)
Fixpoint index_from (c : N) (tbl : str) (i : N) : option N :=
  match tbl with
  | [] => None
  | x :: tbl' => if x =? c then Some i else index_from c tbl' (N.succ i)
  end.

Definition b64_index (c : N) : option N := index_from c b64_table 0.

Definition b64_quad (c0 c1 c2 c3 : N) : option bytes :=
  i0 ← b64_index c0;
  i1 ← b64_index c1;
  b0 ← Byte.of_N (N.lor (N.shiftl i0 2) (N.shiftr i1 4));
  if (c2 =? b64_pad) && (c3 =? b64_pad) then Some [b0]
  else
    i2 ← b64_index c2;
    b1 ← Byte.of_N (N.lor (N.shiftl (N.land i1 15) 4) (N.shiftr i2 2));
    if c3 =? b64_pad then Some [b0; b1]
    else
      i3 ← b64_index c3;
      b2 ← Byte.of_N (N.lor (N.shiftl (N.land i2 3) 6) i3);
      Some [b0; b1; b2].

Fixpoint b64decode (s : str) : option bytes :=
  match s with
  | [] => Some []
  | c0 :: c1 :: c2 :: c3 :: rest =>
      q ← b64_quad c0 c1 c2 c3;
      if c3 =? b64_pad
      then (if is_empty rest then Some q else None)
      else r ← b64decode rest; Some (q ++ r)
  | _ => None
  end.

(** ** Exceptions, the world and the environment *)

(** The exceptions the tools tell apart: [subprocess.TimeoutExpired] and
    every other [Exception]; [msg] is [str(e)]. *)
Inductive exn :=
| TimeoutExpired (msg : str)
| Exception (msg : str).

Definition exn_str (e : exn) : str :=
  match e with TimeoutExpired msg | Exception msg => msg end.

Inductive result (A : Type) :=
| Ok (a : A)
| Raise (e : exn).
Arguments Ok {A} a.
Arguments Raise {A} e.

Inductive level := INFO | WARNING | ERROR.

(** What one call of [subprocess.run(cmd, capture_output=True, text=True,
    timeout=t)] comes to. *)
Inductive outcome :=
| Completed (returncode : Z) (stderr : str)
| TimedOut (msg : str)          (* raises subprocess.TimeoutExpired *)
| NotStarted (msg : str).       (* raises OSError: the binary is missing *)

Record World := {
  script_content : str;               (* state.script_content *)
  files : gmap (list N) (list byte);  (* the file system: path to contents *)
  runs : list (list str * N);         (* subprocess.run calls: argv, timeout *)
  log : list (level * str)            (* records handed to the logger *)
}.

Record Env := {
  STATE_FILE : str;                   (* str(STATE_FILE) *)
  WORK_DIR_join : str -> str;         (* str(WORK_DIR / filename) *)
  tmp_name : str;                     (* the name tempfile picks, without suffix *)
  open_w : str -> option str;         (* open(path, 'w'): the OSError text, if any *)
  write_text : str -> str -> bytes + str;
                                      (* f.write(text) and close on path: the
                                         bytes stored, or the text of the
                                         UnicodeEncodeError / OSError *)
  dump_state : str -> bytes + str;    (* json.dump({'script_content': s}, f,
                                         indent=2) and close, likewise *)
  unlink_err : str -> option str;     (* os.unlink(path): the OSError text, if any *)
  openscad : list str -> N -> gmap (list N) (list byte) ->
             outcome * gmap (list N) (list byte)
                                      (* the external process: what it leaves
                                         on the file system and how it ends *)
}.

Definition set_script (s : str) (w : World) : World :=
  {| script_content := s; files := files w; runs := runs w; log := log w |}.

Definition set_files (fs : gmap (list N) (list byte)) (w : World) : World :=
  {| script_content := script_content w; files := fs; runs := runs w;
     log := log w |}.

Definition add_run (cmd : list str) (timeout : N) (w : World) : World :=
  {| script_content := script_content w; files := files w;
     runs := runs w ++ [(cmd, timeout)]; log := log w |}.

Definition add_log (l : level) (msg : str) (w : World) : World :=
  {| script_content := script_content w; files := files w; runs := runs w;
     log := log w ++ [(l, msg)] |}.

(** ** The monad of tools: state and exceptions *)

Definition M (A : Type) : Type := World -> result A * World.

#[global] Instance M_ret : MRet M := fun A a w => (Ok a, w).

#[global] Instance M_bind : MBind M := fun A B k m w =>
  match m w with
  | (Ok a, w') => k a w'
  | (Raise e, w') => (Raise e, w')
  end.

Definition raise {A} (e : exn) : M A := fun w => (Raise e, w).

(** [try: body  except ... as e: handler e] *)
Definition try_except {A} (body : M A) (handler : exn -> M A) : M A :=
  fun w =>
    match body w with
    | (Ok a, w') => (Ok a, w')
    | (Raise e, w') => handler e w'
    end.

(** [try: body  finally: cleanup]; also when [body] returns early. *)
Definition try_finally {A} (body : M A) (cleanup : M unit) : M A :=
  fun w =>
    let '(r, w1) := body w in
    match cleanup w1 with
    | (Ok _, w2) => (r, w2)
    | (Raise e, w2) => (Raise e, w2)
    end.

Fixpoint for_each {A} (l : list A) (body : A -> M unit) : M unit :=
  match l with
  | [] => mret tt
  | x :: l' => _ ← body x; for_each l' body
  end.

Definition logger (l : level) (msg : str) : M unit :=
  fun w => (Ok tt, add_log l msg w).

Definition get_script : M str := fun w => (Ok (script_content w), w).

(** [Path(p).exists()] *)
Definition path_exists (p : str) : M bool :=
  fun w => (Ok (bool_decide (is_Some (files w !! p))), w).

Definition no_such_file (p : str) : str :=
  py "[Errno 2] No such file or directory: '" ++ p ++ py "'".

(** [open(p, 'rb').read()] *)
Definition read_bytes (p : str) : M bytes :=
  fun w =>
    match files w !! p with
    | Some data => (Ok data, w)
    | None => (Raise (Exception (no_such_file p)), w)
    end.

(** [p.stat().st_size] *)
Definition st_size (p : str) : M nat :=
  fun w =>
    match files w !! p with
    | Some data => (Ok (length data), w)
    | None => (Raise (Exception (no_such_file p)), w)
    end.

(** ** The tools *)

(** Predefined camera views: a dict, in insertion order. *)
Definition CAMERA_VIEWS : list (str * str) :=
  [ (py "isometric", py "--camera=10,10,10,60,0,45,25");
    (py "front",     py "--camera=0,0,10,0,0,0,25");
    (py "back",      py "--camera=0,0,-10,0,0,180,25");
    (py "left",      py "--camera=-10,0,0,0,0,90,25");
    (py "right",     py "--camera=10,0,0,0,0,270,25");
    (py "top",       py "--camera=0,0,10,0,0,0,25");
    (py "bottom",    py "--camera=0,0,-10,0,0,0,25") ].

(** [d.keys()] and [d[k]] ([None]: [k not in d]). *)
Definition keys (d : list (str * str)) : list str := map fst d.

Fixpoint dict_get (k : str) (d : list (str * str)) : option str :=
  match d with
  | [] => None
  | (k', v) :: d' => if bool_decide (k' = k) then Some v else dict_get k d'
  end.

Definition LF : N := 10.

Section Tools.

Context (E : Env).

(** [with open(p, 'w') as f: <write>]: the file is truncated on
    opening; a failed write leaves it empty. *)
Definition open_write (p : str) (written : bytes + str) : M unit :=
  fun w =>
    match open_w E p with
    | Some msg => (Raise (Exception msg), w)
    | None =>
        match written with
        | inl data => (Ok tt, set_files (<[p := data]> (files w)) w)
        | inr msg =>
            (Raise (Exception msg), set_files (<[p := []]> (files w)) w)
        end
    end.

(** [with tempfile.NamedTemporaryFile(mode='w', suffix=suffix,
    delete=False) as f: f.write(text); path = f.name]: the file is
    created, written and closed, and it stays ([delete=False]). *)
Definition named_temporary_file (suffix text : str) : M str :=
  fun w =>
    let name := tmp_name E ++ suffix in
    match write_text E name text with
    | inl data => (Ok name, set_files (<[name := data]> (files w)) w)
    | inr msg =>
        (Raise (Exception msg), set_files (<[name := []]> (files w)) w)
    end.

(** [os.unlink(p)] *)
Definition unlink (p : str) : M unit :=
  fun w =>
    match files w !! p, unlink_err E p with
    | None, _ => (Raise (Exception (no_such_file p)), w)
    | Some _, Some msg => (Raise (Exception msg), w)
    | Some _, None => (Ok tt, set_files (delete p (files w)) w)
    end.

(** [subprocess.run(cmd, capture_output=True, text=True, timeout=t)] *)
Definition subprocess_run (cmd : list str) (timeout : N) : M (Z * str) :=
  fun w =>
    let '(o, fs) := openscad E cmd timeout (files w) in
    let w' := set_files fs (add_run cmd timeout w) in
    match o with
    | Completed returncode stderr => (Ok (returncode, stderr), w')
    | TimedOut msg => (Raise (TimeoutExpired msg), w')
    | NotStarted msg => (Raise (Exception msg), w')
    end.

(** [OpenSCADState.save_state] *)
Definition save_state : M unit :=
  try_except
    (s ← get_script;
     _ ← open_write (STATE_FILE E) (dump_state E s);
     logger INFO (py "State saved to file"))
    (fun e => logger ERROR (py "Error saving state: " ++ exn_str e)).

Definition show_openscad_script : M str :=
  try_except
    (s ← get_script;
     if is_empty (strip s) then mret (py "No script content in scratchpad")
     else
       s ← get_script;
       mret (py "Current OpenSCAD script:" ++ [LF; LF] ++ s))
    (fun e =>
       _ ← logger ERROR (py "Error showing script: " ++ exn_str e);
       mret (py "Error retrieving script: " ++ exn_str e)).

Definition create_openscad_script (script_content : str) : M str :=
  try_except
    (_ ← (fun w => (Ok tt, set_script script_content w));
     _ ← save_state;
     let lines := length (split LF script_content) in
     let chars := length script_content in
     _ ← logger INFO (py "Script updated: " ++ str_of_nat lines
                      ++ py " lines, " ++ str_of_nat chars
                      ++ py " characters");
     mret (py "OpenSCAD script updated successfully ("
           ++ str_of_nat lines ++ py " lines, " ++ str_of_nat chars
           ++ py " characters)"))
    (fun e =>
       _ ← logger ERROR (py "Error creating script: " ++ exn_str e);
       mret (py "Error updating script: " ++ exn_str e)).

(** The body of a cleanup loop: remove [temp_path] if it is there; a
    failure is logged and goes no further. *)
Definition cleanup (temp_path : str) : M unit :=
  try_except
    (there ← path_exists temp_path;
     if there : bool then unlink temp_path else mret tt)
    (fun e =>
       logger WARNING (py "Failed to cleanup " ++ temp_path ++ py ": "
                       ++ exn_str e)).

Definition view_render (view : str) : M str :=
  try_except
    (s ← get_script;
     if is_empty (strip s) then mret (py "No script content to render")
     else
       match dict_get view CAMERA_VIEWS with
       | None =>
           mret (py "Invalid view '" ++ view ++ py "'. Available views: "
                 ++ join (py ", ") (keys CAMERA_VIEWS))
       | Some camera =>
           s ← get_script;
           scad_path ← named_temporary_file (py ".scad") s;
           let png_path := replace (py ".scad") (py ".png") scad_path in
           try_finally
             (let cmd := [ py "openscad"; camera; py "--imgsize=1024,1024";
                           py "--render"; py "-o"; png_path; scad_path ] in
              _ ← logger INFO (py "Running OpenSCAD command: "
                               ++ join (py " ") cmd);
              result ← subprocess_run cmd 30;
              if negb (result.1 =? 0)%Z then
                let error_msg := py "OpenSCAD error: " ++ result.2 in
                _ ← logger ERROR error_msg;
                mret error_msg
              else
                there ← path_exists png_path;
                if negb there
                then mret (py "Render failed: No output file generated")
                else
                  png_data ← read_bytes png_path;
                  let base64_data := b64encode png_data in
                  _ ← logger INFO (py "Render successful: " ++ view
                                   ++ py " view, "
                                   ++ str_of_nat (length base64_data)
                                   ++ py " bytes base64");
                  mret (py "data:image/png;base64," ++ base64_data))
             (for_each [scad_path; png_path] cleanup)
       end)
    (fun e =>
       match e with
       | TimeoutExpired _ =>
           _ ← logger ERROR (py "OpenSCAD render timeout");
           mret (py "Render timeout - script may be too complex")
       | Exception msg =>
           _ ← logger ERROR (py "Error during render: " ++ msg);
           mret (py "Render error: " ++ msg)
       end).

Definition export_model_to_stl (filename : str) : M str :=
  try_except
    (s ← get_script;
     if is_empty (strip s) then mret (py "No script content to export")
     else
       let filename := replace (py ".stl") (py "") filename ++ py ".stl" in
       let stl_path := WORK_DIR_join E filename in
       s ← get_script;
       scad_path ← named_temporary_file (py ".scad") s;
       try_finally
         (let cmd := [ py "openscad"; py "--render"; py "-o"; stl_path;
                       scad_path ] in
          _ ← logger INFO (py "Exporting STL: " ++ join (py " ") cmd);
          result ← subprocess_run cmd 60;
          if negb (result.1 =? 0)%Z then
            let error_msg := py "OpenSCAD export error: " ++ result.2 in
            _ ← logger ERROR error_msg;
            mret error_msg
          else
            there ← path_exists stl_path;
            if negb there
            then mret (py "Export failed: No STL file generated")
            else
              file_size ← st_size stl_path;
              _ ← logger INFO (py "STL exported successfully: " ++ stl_path
                               ++ py " (" ++ str_of_nat file_size
                               ++ py " bytes)");
              mret (py "STL exported successfully to " ++ stl_path
                    ++ py " (" ++ str_of_nat file_size ++ py " bytes)"))
         (cleanup scad_path))
    (fun e =>
       match e with
       | TimeoutExpired _ =>
           _ ← logger ERROR (py "OpenSCAD export timeout");
           mret (py "Export timeout - script may be too complex")
       | Exception msg =>
           _ ← logger ERROR (py "Error during export: " ++ msg);
           mret (py "Export error: " ++ msg)
       end).

Definition save_openscad_script (filename : str) : M str :=
  try_except
    (s ← get_script;
     if is_empty (strip s) then mret (py "No script content to save")
     else
       let filename := replace (py ".scad") (py "") filename ++ py ".scad" in
       let script_path := WORK_DIR_join E filename in
       s ← get_script;
       _ ← open_write script_path (write_text E script_path s);
       s ← get_script;
       let lines := length (split LF s) in
       _ ← logger INFO (py "Script saved: " ++ script_path ++ py " ("
                        ++ str_of_nat lines ++ py " lines)");
       mret (py "Script saved to " ++ script_path ++ py " ("
             ++ str_of_nat lines ++ py " lines)"))
    (fun e =>
       _ ← logger ERROR (py "Error saving script: " ++ exn_str e);
       mret (py "Save error: " ++ exn_str e)).

End Tools.

(** ** Vocabulary of the properties *)

(** Every character is white space (the empty string included): what
    [not s.strip()] tests. *)
Definition whitespace_only (s : str) : Prop :=
  Forall (fun c => isspace c = true) s.

(** The two temporary paths of one [view_render] call, and the argument
    lists handed to [subprocess.run]. *)
Definition scad_path (E : Env) : str := tmp_name E ++ py ".scad".

Definition png_path (E : Env) : str :=
  replace (py ".scad") (py ".png") (scad_path E).

Definition render_cmd (E : Env) (camera : str) : list str :=
  [ py "openscad"; camera; py "--imgsize=1024,1024"; py "--render"; py "-o";
    png_path E; scad_path E ].

Definition export_cmd (E : Env) (filename : str) : list str :=
  [ py "openscad"; py "--render"; py "-o";
    WORK_DIR_join E (replace (py ".stl") (py "") filename ++ py ".stl");
    scad_path E ].

(** What the cleanup of one path leaves of the file system: the path is
    removed when it is there and [os.unlink] does not fail. *)
Definition removed (E : Env) (p : str) (fs : gmap (list N) (list byte)) :
    gmap (list N) (list byte) :=
  match fs !! p, unlink_err E p with
  | Some _, None => delete p fs
  | _, _ => fs
  end.

(** What [view_render] returns once the compiler has been run: [o] is
    how the process ended and [fs] the file system it left. *)
Definition render_result (E : Env) (o : outcome)
    (fs : gmap (list N) (list byte)) : str :=
  match o with
  | Completed returncode stderr =>
      if (returncode =? 0)%Z then
        match fs !! png_path E with
        | None => py "Render failed: No output file generated"
        | Some png_data => py "data:image/png;base64," ++ b64encode png_data
        end
      else py "OpenSCAD error: " ++ stderr
  | TimedOut _ => py "Render timeout - script may be too complex"
  | NotStarted msg => py "Render error: " ++ msg
  end.

(** The destination of [export_model_to_stl], and what the tool returns
    once the compiler has been run. *)
Definition stl_path (E : Env) (filename : str) : str :=
  WORK_DIR_join E (replace (py ".stl") (py "") filename ++ py ".stl").

Definition export_result (E : Env) (filename : str) (o : outcome)
    (fs : gmap (list N) (list byte)) : str :=
  match o with
  | Completed returncode stderr =>
      if (returncode =? 0)%Z then
        match fs !! stl_path E filename with
        | None => py "Export failed: No STL file generated"
        | Some mesh =>
            py "STL exported successfully to " ++ stl_path E filename
            ++ py " (" ++ str_of_nat (length mesh) ++ py " bytes)"
        end
      else py "OpenSCAD export error: " ++ stderr
  | TimedOut _ => py "Export timeout - script may be too complex"
  | NotStarted msg => py "Export error: " ++ msg
  end.

(** A temporary path is gone when [view_render] returns; both are. *)
Definition released (E : Env) (view : str) (w : World) (p : str) : Prop :=
  files (view_render E view w).2 !! p = None.

Definition releases_temporaries (E : Env) (view : str) (w : World) : Prop :=
  forall p, p ∈ [scad_path E; png_path E] -> released E view w p.

Definition render_timeout : str :=
  py "Render timeout - script may be too complex".

Definition export_timeout : str :=
  py "Export timeout - script may be too complex".

(** [show_openscad_script], called after [create_openscad_script S],
    returns a text that contains [S]. *)
Definition shows_after_create (E : Env) (S : str) (w : World) : Prop :=
  exists text,
    (show_openscad_script (create_openscad_script E S w).2).1 = Ok text /\
    contains S text = true.

Definition preset_names : list str :=
  [ py "isometric"; py "front"; py "back"; py "left"; py "right"; py "top";
    py "bottom" ].

Definition invalid_view_error (view : str) : str :=
  py "Invalid view '" ++ view
  ++ py "'. Available views: isometric, front, back, left, right, top, bottom".

(** [view_render] answers with the list of the valid names and leaves
    the world as it was: no process, no file, no log record. *)
Definition rejects_view (E : Env) (view : str) (w : World) : Prop :=
  view_render E view w = (Ok (invalid_view_error view), w).

Definition updated_message (S : str) : str :=
  py "OpenSCAD script updated successfully ("
  ++ str_of_nat (length (split LF S)) ++ py " lines, "
  ++ str_of_nat (length S) ++ py " characters)".

(** The durable write of [save_state] fails: on opening the state file,
    or while the record is written. *)
Definition save_fails (E : Env) (S msg : str) : Prop :=
  open_w E (STATE_FILE E) = Some msg \/
  (open_w E (STATE_FILE E) = None /\ dump_state E S = inr msg).

(** [create_openscad_script S] reports success, keeps [S] in memory, and
    [show_openscad_script] then returns a text that contains [S]. *)
Definition create_unaffected (E : Env) (S : str) (w : World) : Prop :=
  (create_openscad_script E S w).1 = Ok (updated_message S) /\
  script_content (create_openscad_script E S w).2 = S /\
  shows_after_create E S w.

(** The normalisation in the words of the specification, to compare
    with the code: strip a trailing extension if present, then append
    exactly one. *)
Definition endswith (suffix s : str) : bool :=
  startswith (rev suffix) (rev s).

Definition strip_trailing_then_append (ext filename : str) : str :=
  (if endswith ext filename
   then take (length filename - length ext)%nat filename
   else filename) ++ ext.

(** ** Stub environments

    A compiler that ends as told and, when given an image, writes it to
    the path that follows [-o]; a locale that encodes ASCII only; faults
    switched on one at a time. *)
Definition encode_ascii (s : str) : bytes + str :=
  if forallb (fun c => c <? 128) s
  then inl (omap Byte.of_N s)
  else inr (py "'ascii' codec can't encode character").

Fixpoint output_arg (cmd : list str) : option str :=
  match cmd with
  | [] => None
  | a :: rest =>
      if bool_decide (a = py "-o") then head rest else output_arg rest
  end.

Definition stub_compiler (o : outcome) (image : option bytes)
    (cmd : list str) (timeout : N) (fs : gmap (list N) (list byte)) :
    outcome * gmap (list N) (list byte) :=
  (o, match image, output_arg cmd with
      | Some data, Some p => <[p := data]> fs
      | _, _ => fs
      end).

Definition stub_env (o : outcome) (image : option bytes)
    (unlink_denied save_denied : bool) : Env :=
  {| STATE_FILE := py "/work/scratchpad_state.json";
     WORK_DIR_join := fun filename => py "/work/" ++ filename;
     tmp_name := py "/tmp/tmpk3v9x1aq";
     open_w := fun p =>
       if save_denied && bool_decide (p = py "/work/scratchpad_state.json")
       then Some (py "[Errno 13] Permission denied") else None;
     write_text := fun _ text => encode_ascii text;
     dump_state := encode_ascii;
     unlink_err := fun _ =>
       if unlink_denied then Some (py "[Errno 13] Permission denied")
       else None;
     openscad := stub_compiler o image |}.

Definition placeholder : bytes := [x89; x50; x4e; x47; x0d; x0a; x1a; x0a].

Definition E_ok : Env := stub_env (Completed 0 []) (Some placeholder) false false.
Definition E_no_output : Env := stub_env (Completed 0 []) None false false.
Definition E_timeout : Env :=
  stub_env (TimedOut (py "timed out")) None false false.
Definition E_unlink_denied : Env :=
  stub_env (Completed 0 []) (Some placeholder) true false.
Definition E_save_denied : Env :=
  stub_env (Completed 0 []) (Some placeholder) false true.

Definition empty_world : World :=
  {| script_content := []; files := ∅; runs := []; log := [] |}.

Definition cube_world : World := set_script (py "cube(10);") empty_world.

(** ** Finite checks behind the base64 round trip *)

Definition below (n : nat) : list N := map N.of_nat (seq 0 n).

(** The shifts and masks of one group, as checks on byte values. *)
Definition sextets_1 (a : N) : bool :=
  (N.shiftr a 2 <? 64) && (N.shiftl (N.land a 3) 4 <? 64)
  && (N.lor (N.shiftl (N.shiftr a 2) 2)
            (N.shiftr (N.shiftl (N.land a 3) 4) 4) =? a)
  && (N.shiftl (N.land a 15) 2 <? 64)
  && (N.land a 63 <? 64)
  && (N.lor (N.shiftl (N.shiftr a 4) 4) (N.land a 15) =? a).

Definition sextets_2 (a b : N) : bool :=
  let i1 := N.lor (N.shiftl (N.land a 3) 4) (N.shiftr b 4) in
  let i2 := N.lor (N.shiftl (N.land a 15) 2) (N.shiftr b 6) in
  (i1 <? 64) && (N.lor (N.shiftl (N.shiftr a 2) 2) (N.shiftr i1 4) =? a)
  && (N.land i1 15 =? N.shiftr b 4)
  && (i2 <? 64) && (N.shiftr i2 2 =? N.land a 15)
  && (N.lor (N.shiftl (N.land i2 3) 6) (N.land b 63) =? b)
  && (N.shiftr (N.shiftl (N.land b 15) 2) 2 =? N.land b 15).

(** ** Start-up: [load_state], [OpenSCADState.__init__] and [main]

    [json_load] stands for [open(STATE_FILE, 'r')] followed by
    [json.load]: what the bytes of the state file parse to.  A record
    whose ['script_content'] is not a string is outside the model. *)
Inductive parsed :=
| JsonError (msg : str)             (* raises: unreadable, not JSON, not a dict *)
| JsonObject (script : option str). (* a dict, and its 'script_content' if any *)

Definition put_script (s : str) : M unit :=
  fun w => (Ok tt, set_script s w).

Section Startup.

Context (E : Env) (json_load : bytes -> parsed) (WORK_DIR : str).

(** [OpenSCADState.load_state] *)
Definition load_state : M unit :=
  try_except
    (there ← path_exists (STATE_FILE E);
     if there : bool then
       raw ← read_bytes (STATE_FILE E);
       match json_load raw with
       | JsonError msg => raise (Exception msg)
       | JsonObject data =>
           _ ← put_script (default [] data);
           logger INFO (py "State loaded from file")
       end
     else logger INFO (py "No existing state file, starting fresh"))
    (fun e =>
       _ ← logger ERROR (py "Error loading state: " ++ exn_str e);
       put_script []).

(** [OpenSCADState.__init__] *)
Definition init_state : M unit :=
  _ ← put_script [];
  load_state.

(** [main], up to the call of [mcp.run()]. *)
Definition main : M unit :=
  _ ← logger INFO (py "Starting OpenSCAD MCP Server");
  _ ← logger INFO (py "Working directory: " ++ WORK_DIR);
  _ ← logger INFO (py "State file: " ++ STATE_FILE E);
  try_except
    (result ← subprocess_run E [py "openscad"; py "--version"] 5;
     if (result.1 =? 0)%Z
     then logger INFO (py "OpenSCAD is available")
     else logger WARNING (py "OpenSCAD may not be properly installed"))
    (fun e => logger ERROR (py "OpenSCAD not found: " ++ exn_str e)).

End Startup.

(** The destination of [save_openscad_script]. *)
Definition script_path (E : Env) (filename : str) : str :=
  WORK_DIR_join E (replace (py ".scad") (py "") filename ++ py ".scad").

(** The number of newline characters of a text. *)
Definition newlines (s : str) : nat := length (filter (fun c => c = LF) s).

(** The characters [b64encode] writes: the alphabet and the padding. *)
Definition b64_symbol (c : N) : bool :=
  match b64_index c with Some _ => true | None => c =? b64_pad end.

(** A stub of the JSON reader for the stub locale: no bytes do not
    parse, [{}] is a record without the key, anything else is the
    script itself. *)
Definition stub_json_load (raw : bytes) : parsed :=
  match raw with
  | [] => JsonError (py "Expecting value: line 1 column 1 (char 0)")
  | _ =>
      if bool_decide (map Byte.to_N raw = py "{}") then JsonObject None
      else JsonObject (Some (map Byte.to_N raw))
  end.

Definition E_refused : Env :=
  stub_env (NotStarted (py "[Errno 2] No such file or directory: 'openscad'"))
    None false false.

Definition E_exit_1 : Env :=
  stub_env (Completed 1 (py "ERROR: Parser error in line 1")) None false false.

(** ** The log

    The logger's [FileHandler] appends every record to
    [openscad_mcp.log].  That file is the [log] component of the world:
    [files] holds the other files, and a statement about the files of a
    world says nothing of the log file. *)
Definition LOG_FILE : str := py "openscad_mcp.log".

(** The record the cleanup of one path adds to the log, and the records
    of a cleanup loop: a warning for every path that is there and whose
    removal is refused. *)
Definition cleanup_warning (E : Env) (p : str)
    (fs : gmap (list N) (list byte)) : list (level * str) :=
  match fs !! p, unlink_err E p with
  | Some _, Some msg =>
      [(WARNING, py "Failed to cleanup " ++ p ++ py ": " ++ msg)]
  | _, _ => []
  end.

Fixpoint cleanup_warnings (E : Env) (ps : list str)
    (fs : gmap (list N) (list byte)) : list (level * str) :=
  match ps with
  | [] => []
  | p :: ps' => cleanup_warning E p fs ++ cleanup_warnings E ps' (removed E p fs)
  end.

(** The records one [view_render] call adds to the log once the
    compiler has been run: the command, what the [try] block logs, the
    warnings of the cleanup, what the handlers log. *)
Definition render_success_record (view : str) (png_data : bytes) :
    level * str :=
  (INFO, py "Render successful: " ++ view ++ py " view, "
         ++ str_of_nat (length (b64encode png_data)) ++ py " bytes base64").

Definition render_log (E : Env) (view camera : str) (o : outcome)
    (fs : gmap (list N) (list byte)) : list (level * str) :=
  [(INFO, py "Running OpenSCAD command: "
          ++ join (py " ") (render_cmd E camera))]
  ++ match o with
     | Completed returncode stderr =>
         if (returncode =? 0)%Z then
           match fs !! png_path E with
           | Some png_data => [render_success_record view png_data]
           | None => []
           end
         else [(ERROR, py "OpenSCAD error: " ++ stderr)]
     | TimedOut _ | NotStarted _ => []
     end
  ++ cleanup_warnings E [scad_path E; png_path E] fs
  ++ match o with
     | Completed _ _ => []
     | TimedOut _ => [(ERROR, py "OpenSCAD render timeout")]
     | NotStarted msg => [(ERROR, py "Error during render: " ++ msg)]
     end.

(** * Properties *)

(** ** Strings *)

Lemma lstrip_nil (s : str) : lstrip s = [] <-> whitespace_only s.
Proof.
  unfold whitespace_only. induction s as [|c s IH]; simpl.
  - split; [constructor | reflexivity].
  - destruct (isspace c) eqn:Hc.
    + rewrite IH. split; [by constructor | by inversion 1].
    + split; [discriminate | inversion 1; congruence].
Qed.

Lemma lstrip_whitespace_only (s : str) :
  whitespace_only (lstrip s) -> whitespace_only s.
Proof.
  unfold whitespace_only. induction s as [|c s IH]; simpl; [done|].
  destruct (isspace c) eqn:Hc; [|done].
  intros H. constructor; auto.
Qed.

(** [not s.strip()] holds exactly of the strings of white space. *)
Lemma strip_empty (s : str) :
  is_empty (strip s) = true <-> whitespace_only s.
Proof.
  unfold strip, rstrip. split.
  - intros H. apply lstrip_whitespace_only.
    destruct (rev (lstrip (rev (lstrip s)))) eqn:Hr; [|discriminate].
    apply (f_equal (@rev N)) in Hr. rewrite rev_involutive in Hr. simpl in Hr.
    apply lstrip_nil in Hr. unfold whitespace_only in *.
    rewrite <- (rev_involutive (lstrip s)). by apply Forall_rev.
  - intros H. apply lstrip_nil in H. rewrite H. reflexivity.
Qed.

Lemma strip_not_empty (s : str) :
  is_empty (strip s) = false <-> ~ whitespace_only s.
Proof.
  rewrite <- strip_empty. destruct (is_empty (strip s)); split; congruence.
Qed.

Lemma startswith_app (p s : str) : startswith p (p ++ s) = true.
Proof.
  induction p as [|a p IH]; simpl; [done|]. by rewrite N.eqb_refl, IH.
Qed.

Lemma contains_app (pre s : str) : contains s (pre ++ s) = true.
Proof.
  induction pre as [|a pre IH]; simpl.
  - destruct s; simpl; [done|].
    rewrite N.eqb_refl. simpl.
    rewrite <- (app_nil_r s) at 2. by rewrite startswith_app.
  - rewrite IH. apply orb_true_r.
Qed.

Lemma startswith_spec (p s : str) :
  startswith p s = true <-> exists t, s = p ++ t.
Proof.
  revert s. induction p as [|a p IH]; intros s; simpl.
  - split; [by exists s | done].
  - destruct s as [|b s]; [split; [done | by intros [t Ht]]|].
    rewrite andb_true_iff, N.eqb_eq, IH. split.
    + intros [-> [t ->]]. by exists t.
    + intros [t Ht]. injection Ht as -> ->. eauto.
Qed.

(** [replace] drops [skip] characters, then goes on from the left. *)
Lemma replace_from_skip (old new s : str) (skip : nat) :
  replace_from old new skip s = replace_from old new O (drop skip s).
Proof.
  revert s. induction skip as [|k IH]; intros [|c s]; simpl; try done.
Qed.

(** The two equations of [str.replace]: an occurrence at the front is
    replaced and the search goes on after it; otherwise one character is
    kept. *)
Lemma replace_match (old new s : str) :
  old <> [] -> replace old new (old ++ s) = new ++ replace old new s.
Proof.
  intros Hold. unfold replace.
  destruct old as [|a old]; [done|]. cbn [app replace_from].
  change (a :: old ++ s) with ((a :: old) ++ s).
  rewrite startswith_app. cbn [length Nat.pred].
  rewrite replace_from_skip, drop_app_length. reflexivity.
Qed.

Lemma replace_no_match (old new : str) (c : N) (s : str) :
  startswith old (c :: s) = false ->
  replace old new (c :: s) = c :: replace old new s.
Proof. intros H. unfold replace. cbn [replace_from]. by rewrite H. Qed.

Lemma replace_absent (old new s : str) :
  contains old s = false -> replace old new s = s.
Proof.
  induction s as [|c s IH]; intros H.
  - reflexivity.
  - simpl in H. apply orb_false_iff in H as [Hc Hs].
    rewrite replace_no_match by done. by rewrite IH.
Qed.

(** No occurrence of ".stl" starts in a name and ends in an extension
    appended to it. *)
Lemma startswith_stl_app (s : str) :
  s <> [] -> startswith (py ".stl") s = false ->
  startswith (py ".stl") (s ++ py ".stl") = false.
Proof.
  intros Hne H.
  destruct s as [|c0 [|c1 [|c2 [|c3 s]]]]; [done|..]; vm_compute in H |- *.
  all: repeat match goal with
       | |- context [match ?c with _ => _ end] => destruct c; try done
       end.
Qed.

Lemma replace_stl_suffix (stem : str) :
  contains (py ".stl") stem = false ->
  replace (py ".stl") (py "") (stem ++ py ".stl") = stem.
Proof.
  induction stem as [|c stem IH]; intros H.
  - reflexivity.
  - pose proof H as H'. simpl in H'. apply orb_false_iff in H' as [Hc Hs].
    change ((c :: stem) ++ py ".stl") with (c :: (stem ++ py ".stl")).
    rewrite replace_no_match.
    + by rewrite IH.
    + by apply (startswith_stl_app (c :: stem)).
Qed.

(** ** base64 *)

Lemma forallb_below (P : N -> bool) (n : nat) :
  forallb P (below n) = true -> forall i, i < N.of_nat n -> P i = true.
Proof.
  intros H i Hi. rewrite forallb_forall in H. apply H.
  unfold below. rewrite in_map_iff. exists (N.to_nat i). split.
  - apply N2Nat.id.
  - apply in_seq. lia.
Qed.

Lemma byte_below (a : byte) : Byte.to_N a < 256.
Proof. pose proof (Byte.to_N_bounded a). lia. Qed.

Lemma b64_index_char (i : N) : i < 64 -> b64_index (b64_char i) = Some i.
Proof.
  intros Hi.
  enough (H : (if b64_index (b64_char i) is Some j then j =? i else false)
              = true).
  { destruct (b64_index (b64_char i)); [|done]. apply N.eqb_eq in H. by subst. }
  revert i Hi. apply (forallb_below _ 64). by vm_compute.
Qed.

Lemma b64_char_not_pad (i : N) : i < 64 -> (b64_char i =? b64_pad) = false.
Proof.
  intros Hi.
  enough (H : negb (b64_char i =? b64_pad) = true) by by apply negb_true_iff.
  revert i Hi. apply (forallb_below _ 64). by vm_compute.
Qed.

Lemma sextets_1_ok (a : N) : a < 256 -> sextets_1 a = true.
Proof. apply (forallb_below _ 256). by vm_compute. Qed.

Lemma sextets_2_ok (a b : N) : a < 256 -> b < 256 -> sextets_2 a b = true.
Proof.
  intros Ha Hb. revert b Hb.
  apply (forallb_below (fun b => sextets_2 a b) 256).
  revert a Ha.
  apply (forallb_below
           (fun a => forallb (fun b => sextets_2 a b) (below 256)) 256).
  by vm_compute.
Qed.

Ltac split_checks H :=
  repeat (let H' := fresh "Hc" in
          apply andb_prop in H; destruct H as [H H']);
  repeat match goal with
         | Hc : (_ =? _) = true |- _ => apply N.eqb_eq in Hc
         | Hc : (_ <? _) = true |- _ => apply N.ltb_lt in Hc
         end.

Lemma bytes_ind3 (P : bytes -> Prop) :
  P [] -> (forall a, P [a]) -> (forall a b, P [a; b]) ->
  (forall a b c rest, P rest -> P (a :: b :: c :: rest)) ->
  forall data, P data.
Proof.
  intros H0 H1 H2 H3.
  fix IH 1. intros [|a [|b [|c rest]]];
    [exact H0 | exact (H1 a) | exact (H2 a b)
    | exact (H3 a b c rest (IH rest))].
Qed.

Lemma b64_quad_1 (a : byte) :
  b64_quad (b64_char (N.shiftr (Byte.to_N a) 2))
           (b64_char (N.shiftl (N.land (Byte.to_N a) 3) 4))
           b64_pad b64_pad = Some [a].
Proof.
  pose proof (sextets_1_ok _ (byte_below a)) as H1.
  unfold sextets_1 in H1. split_checks H1.
  unfold b64_quad. rewrite !b64_index_char by done. simpl.
  rewrite Hc2, Byte.of_to_N. reflexivity.
Qed.

Lemma b64_quad_2 (a b : byte) :
  b64_quad (b64_char (N.shiftr (Byte.to_N a) 2))
           (b64_char (N.lor (N.shiftl (N.land (Byte.to_N a) 3) 4)
                            (N.shiftr (Byte.to_N b) 4)))
           (b64_char (N.shiftl (N.land (Byte.to_N b) 15) 2))
           b64_pad = Some [a; b].
Proof.
  pose proof (sextets_1_ok _ (byte_below a)) as Ha.
  pose proof (sextets_1_ok _ (byte_below b)) as Hb.
  pose proof (sextets_2_ok _ _ (byte_below a) (byte_below b)) as Hab.
  unfold sextets_1 in Ha, Hb. unfold sextets_2 in Hab.
  split_checks Ha. split_checks Hb. split_checks Hab.
  unfold b64_quad. rewrite !b64_index_char by done. simpl.
  rewrite b64_char_not_pad by done. simpl.
  repeat match goal with H : _ = _ |- _ => rewrite H end.
  rewrite !Byte.of_to_N. reflexivity.
Qed.

Lemma b64_quad_3 (a b c : byte) :
  b64_quad (b64_char (N.shiftr (Byte.to_N a) 2))
           (b64_char (N.lor (N.shiftl (N.land (Byte.to_N a) 3) 4)
                            (N.shiftr (Byte.to_N b) 4)))
           (b64_char (N.lor (N.shiftl (N.land (Byte.to_N b) 15) 2)
                            (N.shiftr (Byte.to_N c) 6)))
           (b64_char (N.land (Byte.to_N c) 63)) = Some [a; b; c].
Proof.
  pose proof (sextets_1_ok _ (byte_below a)) as Ha.
  pose proof (sextets_1_ok _ (byte_below b)) as Hb.
  pose proof (sextets_1_ok _ (byte_below c)) as Hc.
  pose proof (sextets_2_ok _ _ (byte_below a) (byte_below b)) as Hab.
  pose proof (sextets_2_ok _ _ (byte_below b) (byte_below c)) as Hbc.
  unfold sextets_1 in Ha, Hb, Hc. unfold sextets_2 in Hab, Hbc.
  split_checks Ha. split_checks Hb. split_checks Hc.
  split_checks Hab. split_checks Hbc.
  unfold b64_quad. rewrite !b64_index_char by done. simpl.
  rewrite !b64_char_not_pad by done. simpl.
  repeat match goal with H : _ = _ |- _ => rewrite H end.
  rewrite !Byte.of_to_N. reflexivity.
Qed.

(** Decoding undoes [b64encode], whatever the bytes. *)
Lemma b64decode_b64encode (data : bytes) :
  b64decode (b64encode data) = Some data.
Proof.
  induction data as [|a|a b|a b c rest IH] using bytes_ind3.
  - reflexivity.
  - cbn [b64encode b64decode]. rewrite b64_quad_1. reflexivity.
  - cbn [b64encode b64decode]. rewrite b64_quad_2. reflexivity.
  - pose proof (sextets_1_ok _ (byte_below c)) as Hc.
    unfold sextets_1 in Hc. split_checks Hc.
    cbn [b64encode b64decode]. rewrite b64_quad_3. simpl.
    rewrite b64_char_not_pad by done. rewrite IH. reflexivity.
Qed.

(** ** The tools, step by step *)

Opaque py replace b64encode join str_of_nat strip split.


Ltac run_tool :=
  unfold view_render, export_model_to_stl, save_openscad_script,
    show_openscad_script, create_openscad_script, save_state,
    try_except, named_temporary_file, open_write, subprocess_run,
    path_exists, read_bytes, st_size, unlink, logger, get_script, raise,
    mbind, M_bind, mret, M_ret;
  cbn beta iota.

Section Cleanup.

Context (E : Env).

Lemma cleanup_result p w : (cleanup E p w).1 = Ok tt.
Proof.
  unfold cleanup. run_tool.
  destruct (files w !! p) eqn:Hp; cbn; rewrite ?Hp; [|done].
  by destruct (unlink_err E p).
Qed.

Lemma cleanup_files p w : files (cleanup E p w).2 = removed E p (files w).
Proof.
  unfold cleanup, removed. run_tool.
  destruct (files w !! p) eqn:Hp; cbn; rewrite ?Hp; [|done].
  by destruct (unlink_err E p).
Qed.

Lemma cleanup_script p w :
  script_content (cleanup E p w).2 = script_content w.
Proof.
  unfold cleanup. run_tool.
  destruct (files w !! p) eqn:Hp; cbn; rewrite ?Hp; [|done].
  by destruct (unlink_err E p).
Qed.

Lemma cleanup_runs p w : runs (cleanup E p w).2 = runs w.
Proof.
  unfold cleanup. run_tool.
  destruct (files w !! p) eqn:Hp; cbn; rewrite ?Hp; [|done].
  by destruct (unlink_err E p).
Qed.

Lemma for_each_cleanup_result ps w : (for_each ps (cleanup E) w).1 = Ok tt.
Proof.
  revert w. induction ps as [|p ps IH]; intros w; [done|].
  cbn [for_each]. unfold mbind, M_bind.
  pose proof (cleanup_result p w) as Hp.
  destruct (cleanup E p w) as [[[]|e] w1]; [apply IH | discriminate].
Qed.

Lemma for_each_cleanup_files ps w :
  files (for_each ps (cleanup E) w).2
  = foldl (fun fs p => removed E p fs) (files w) ps.
Proof.
  revert w. induction ps as [|p ps IH]; intros w; [done|].
  cbn [for_each foldl]. unfold mbind, M_bind.
  pose proof (cleanup_result p w) as Hp.
  pose proof (cleanup_files p w) as Hf.
  destruct (cleanup E p w) as [[[]|e] w1]; [|discriminate].
  simpl in Hf. rewrite IH, Hf. done.
Qed.

Lemma for_each_cleanup_script ps w :
  script_content (for_each ps (cleanup E) w).2 = script_content w.
Proof.
  revert w. induction ps as [|p ps IH]; intros w; [done|].
  cbn [for_each]. unfold mbind, M_bind.
  pose proof (cleanup_result p w) as Hp.
  pose proof (cleanup_script p w) as Hs.
  destruct (cleanup E p w) as [[[]|e] w1]; [|discriminate].
  simpl in Hs. by rewrite IH.
Qed.

Lemma for_each_cleanup_runs ps w :
  runs (for_each ps (cleanup E) w).2 = runs w.
Proof.
  revert w. induction ps as [|p ps IH]; intros w; [done|].
  cbn [for_each]. unfold mbind, M_bind.
  pose proof (cleanup_result p w) as Hp.
  pose proof (cleanup_runs p w) as Hr.
  destruct (cleanup E p w) as [[[]|e] w1]; [|discriminate].
  simpl in Hr. by rewrite IH.
Qed.

Lemma removed_gone p fs : unlink_err E p = None -> removed E p fs !! p = None.
Proof.
  intros H. unfold removed. rewrite H.
  destruct (fs !! p) eqn:Hp; [apply lookup_delete_eq | done].
Qed.

Lemma removed_absent p q fs : fs !! q = None -> removed E p fs !! q = None.
Proof.
  intros H. unfold removed.
  destruct (fs !! p), (unlink_err E p); try done.
  rewrite lookup_delete. by case_decide.
Qed.

(** A [try ... finally] whose cleanup is the loop over [cleanup]
    returns what its body returns. *)
Lemma try_finally_cleanup {A} (body : M A) ps w :
  try_finally body (for_each ps (cleanup E)) w
  = ((body w).1, (for_each ps (cleanup E) (body w).2).2).
Proof.
  unfold try_finally. destruct (body w) as [r w1]. simpl.
  pose proof (for_each_cleanup_result ps w1) as H.
  by destruct (for_each ps (cleanup E) w1) as [[[]|e] w2].
Qed.

Lemma try_finally_cleanup1 {A} (body : M A) p w :
  try_finally body (cleanup E p) w
  = ((body w).1, (cleanup E p (body w).2).2).
Proof.
  unfold try_finally. destruct (body w) as [r w1]. simpl.
  pose proof (cleanup_result p w1) as H.
  by destruct (cleanup E p w1) as [[[]|e] w2].
Qed.
End Cleanup.

(** ** [view_render] and [export_model_to_stl], end to end

    Once the script is not blank, the view is known and the temporary
    script has been written, a call is determined by what the compiler
    does: the text returned, the script kept, the files left, and the one
    call of [subprocess.run]. *)
Lemma view_render_run E view w camera data o fs :
  ~ whitespace_only (script_content w) ->
  dict_get view CAMERA_VIEWS = Some camera ->
  write_text E (scad_path E) (script_content w) = inl data ->
  openscad E (render_cmd E camera) 30 (<[scad_path E := data]> (files w))
  = (o, fs) ->
  (view_render E view w).1 = Ok (render_result E o fs) /\
  script_content (view_render E view w).2 = script_content w /\
  files (view_render E view w).2
  = removed E (png_path E) (removed E (scad_path E) fs) /\
  runs (view_render E view w).2 = runs w ++ [(render_cmd E camera, 30)].
Proof.
  intros Hs Hc Hw Hrun. apply strip_not_empty in Hs.
  run_tool. rewrite Hs, Hc. fold (scad_path E). rewrite Hw.
  rewrite try_finally_cleanup. fold (png_path E). cbn [files add_log set_files].
  fold (render_cmd E camera). rewrite Hrun. unfold render_result.
  pose proof (for_each_cleanup_files E [scad_path E; png_path E]) as Hf.
  pose proof (for_each_cleanup_script E [scad_path E; png_path E]) as Hsc.
  pose proof (for_each_cleanup_runs E [scad_path E; png_path E]) as Hru.
  cbn [foldl] in Hf.
  destruct o as [returncode stderr|msg|msg]; cbn -[for_each].
  - destruct (returncode =? 0)%Z; cbn -[for_each].
    + destruct (fs !! png_path E) eqn:Hpng; cbn -[for_each]; rewrite ?Hpng;
        cbn -[for_each]; by rewrite Hf, Hsc, Hru.
    + by rewrite Hf, Hsc, Hru.
  - by rewrite Hf, Hsc, Hru.
  - by rewrite Hf, Hsc, Hru.
Qed.

Lemma export_run E filename w data o fs :
  ~ whitespace_only (script_content w) ->
  write_text E (scad_path E) (script_content w) = inl data ->
  openscad E (export_cmd E filename) 60 (<[scad_path E := data]> (files w))
  = (o, fs) ->
  (export_model_to_stl E filename w).1 = Ok (export_result E filename o fs) /\
  script_content (export_model_to_stl E filename w).2 = script_content w /\
  files (export_model_to_stl E filename w).2 = removed E (scad_path E) fs /\
  runs (export_model_to_stl E filename w).2
  = runs w ++ [(export_cmd E filename, 60)].
Proof.
  intros Hs Hw Hrun. apply strip_not_empty in Hs.
  run_tool. rewrite Hs. fold (scad_path E). rewrite Hw.
  rewrite try_finally_cleanup1. cbn [files add_log set_files].
  fold (export_cmd E filename). rewrite Hrun. unfold export_result, stl_path.
  pose proof (cleanup_files E (scad_path E)) as Hf.
  pose proof (cleanup_script E (scad_path E)) as Hsc.
  pose proof (cleanup_runs E (scad_path E)) as Hru.
  destruct o as [returncode stderr|msg|msg]; cbn -[cleanup].
  - destruct (returncode =? 0)%Z; cbn -[cleanup].
    + destruct (fs !! _) eqn:Hstl; cbn -[cleanup]; rewrite ?Hstl;
        cbn -[cleanup]; by rewrite Hf, Hsc, Hru.
    + by rewrite Hf, Hsc, Hru.
  - by rewrite Hf, Hsc, Hru.
  - by rewrite Hf, Hsc, Hru.
Qed.

(** When the temporary script cannot be written, [view_render] does not
    reach its [try] block: the error is returned and the file just
    created stays. *)
Lemma view_render_write_failed E view w camera msg :
  ~ whitespace_only (script_content w) ->
  dict_get view CAMERA_VIEWS = Some camera ->
  write_text E (scad_path E) (script_content w) = inr msg ->
  view_render E view w
  = (Ok (py "Render error: " ++ msg),
     add_log ERROR (py "Error during render: " ++ msg)
       (set_files (<[scad_path E := []]> (files w)) w)).
Proof.
  intros Hs Hc Hw. apply strip_not_empty in Hs.
  run_tool. rewrite Hs, Hc. fold (scad_path E). by rewrite Hw.
Qed.

Lemma removed_other (E : Env) (p q : str) (fs : gmap (list N) (list byte)) :
  q <> p -> removed E p fs !! q = fs !! q.
Proof.
  intros Hq. unfold removed.
  destruct (fs !! p), (unlink_err E p); try done.
  by rewrite lookup_delete_ne.
Qed.

(** A path whose removal is refused outlives every cleanup. *)
Lemma removed_refused (E : Env) (p q : str) (fs : gmap (list N) (list byte))
    (d : bytes) (msg : str) :
  fs !! p = Some d -> unlink_err E p = Some msg ->
  removed E q fs !! p = Some d.
Proof.
  intros Hd Hu. destruct (decide (p = q)) as [<-|Hne].
  - unfold removed. by rewrite Hd, Hu.
  - by rewrite removed_other.
Qed.

Lemma cleanup_log E p w :
  log (cleanup E p w).2 = log w ++ cleanup_warning E p (files w).
Proof.
  unfold cleanup, cleanup_warning. run_tool.
  destruct (files w !! p) eqn:Hp; cbn; rewrite ?Hp.
  - destruct (unlink_err E p); cbn; [done|]. by rewrite app_nil_r.
  - by rewrite app_nil_r.
Qed.

Lemma for_each_cleanup_log E ps w :
  log (for_each ps (cleanup E) w).2
  = log w ++ cleanup_warnings E ps (files w).
Proof.
  revert w. induction ps as [|p ps IH]; intros w.
  - cbn. by rewrite app_nil_r.
  - cbn [for_each cleanup_warnings]. unfold mbind, M_bind.
    pose proof (cleanup_result E p w) as Hp.
    pose proof (cleanup_files E p w) as Hf.
    pose proof (cleanup_log E p w) as Hl.
    destruct (cleanup E p w) as [[[]|e] w1]; [|discriminate].
    simpl in Hf, Hl. by rewrite IH, Hf, Hl, app_assoc.
Qed.

(** The log of a [view_render] call that has run the compiler. *)
Lemma view_render_run_log E view w camera data o fs :
  ~ whitespace_only (script_content w) ->
  dict_get view CAMERA_VIEWS = Some camera ->
  write_text E (scad_path E) (script_content w) = inl data ->
  openscad E (render_cmd E camera) 30 (<[scad_path E := data]> (files w))
  = (o, fs) ->
  log (view_render E view w).2 = log w ++ render_log E view camera o fs.
Proof.
  intros Hs Hc Hw Hrun. apply strip_not_empty in Hs.
  run_tool. rewrite Hs, Hc. fold (scad_path E). rewrite Hw.
  rewrite try_finally_cleanup. fold (png_path E). cbn [files add_log set_files].
  fold (render_cmd E camera). rewrite Hrun.
  unfold render_log, render_success_record.
  pose proof (for_each_cleanup_log E [scad_path E; png_path E]) as Hl.
  destruct o as [returncode stderr|msg|msg]; cbn -[for_each cleanup_warnings].
  - destruct (returncode =? 0)%Z; cbn -[for_each cleanup_warnings].
    + destruct (fs !! png_path E) eqn:Hpng; cbn -[for_each cleanup_warnings];
        rewrite ?Hpng; cbn -[for_each cleanup_warnings]; rewrite Hl;
        cbn -[cleanup_warnings]; by rewrite ?app_nil_r, <- ?app_assoc.
    + rewrite Hl. cbn -[cleanup_warnings].
      by rewrite ?app_nil_r, <- ?app_assoc.
  - rewrite Hl. cbn -[cleanup_warnings]. by rewrite <- ?app_assoc.
  - rewrite Hl. cbn -[cleanup_warnings]. by rewrite <- ?app_assoc.
Qed.

(** ** The claims *)

(** C1, as amended.  A call of [view_render] that gets as far as its
    [try] block (the script is not blank, the view is known, the
    temporary script has been written) attends to both temporary paths
    before it returns, however the compiler ends (zero or nonzero exit,
    timeout, failure to start, no output).  A path whose removal does
    not fail is absent from the file system on return.  A path that is
    there when the compiler has ended and whose removal fails is left
    where it is, and the failure is logged as the warning "Failed to
    cleanup <path>: <error>". *)
Theorem view_render_releases_temporaries E view w camera data p :
  ~ whitespace_only (script_content w) ->
  dict_get view CAMERA_VIEWS = Some camera ->
  write_text E (scad_path E) (script_content w) = inl data ->
  p ∈ [scad_path E; png_path E] ->
  (unlink_err E p = None -> released E view w p) /\
  (forall msg d,
     unlink_err E p = Some msg ->
     (openscad E (render_cmd E camera) 30
        (<[scad_path E := data]> (files w))).2 !! p = Some d ->
     files (view_render E view w).2 !! p = Some d /\
     (WARNING, py "Failed to cleanup " ++ p ++ py ": " ++ msg)
     ∈ log (view_render E view w).2).
Proof.
  intros Hs Hc Hw Hp.
  destruct (openscad E (render_cmd E camera) 30
              (<[scad_path E := data]> (files w))) as [o fs] eqn:Hrun.
  pose proof (view_render_run E view w camera data o fs Hs Hc Hw Hrun)
    as (_ & _ & Hfiles & _).
  pose proof (view_render_run_log E view w camera data o fs Hs Hc Hw Hrun)
    as Hlog.
  split.
  - intros Hu. unfold released. rewrite Hfiles.
    apply elem_of_cons in Hp as [->|Hp].
    + by apply removed_absent, removed_gone.
    + apply list_elem_of_singleton in Hp as ->. by apply removed_gone.
  - intros msg d Hu Hd. cbn [snd] in Hd. split.
    + rewrite Hfiles. apply (removed_refused E p _ _ d msg); [|done].
      by apply (removed_refused E p _ _ d msg).
    + rewrite Hlog. unfold render_log. cbn [cleanup_warnings].
      rewrite !elem_of_app. right. right. right. left.
      apply elem_of_cons in Hp as [->|Hp].
      * left. unfold cleanup_warning. rewrite Hd, Hu. by left.
      * apply list_elem_of_singleton in Hp as ->.
        right. left. unfold cleanup_warning.
        rewrite (removed_refused E (png_path E) _ fs d msg Hd Hu), Hu.
        by left.
Qed.

Lemma view_render_releases_temporaries_witness :
  released E_ok (py "top") cube_world (png_path E_ok) /\
  files (view_render E_unlink_denied (py "top") cube_world).2
  !! png_path E_unlink_denied = Some placeholder /\
  (WARNING, py "Failed to cleanup " ++ png_path E_unlink_denied ++ py ": "
            ++ py "[Errno 13] Permission denied")
  ∈ log (view_render E_unlink_denied (py "top") cube_world).2.
Proof.
  split.
  - apply (view_render_releases_temporaries E_ok (py "top") cube_world
             (py "--camera=0,0,10,0,0,0,25")
             (omap Byte.of_N (py "cube(10);")) (png_path E_ok)).
    + apply strip_not_empty. reflexivity.
    + reflexivity.
    + reflexivity.
    + right. left.
    + reflexivity.
  - apply (view_render_releases_temporaries E_unlink_denied (py "top")
             cube_world (py "--camera=0,0,10,0,0,0,25")
             (omap Byte.of_N (py "cube(10);")) (png_path E_unlink_denied)).
    + apply strip_not_empty. reflexivity.
    + reflexivity.
    + reflexivity.
    + right. left.
    + reflexivity.
    + by vm_compute.
Defined.

(** C1, as stated, fails: when [os.unlink] is refused, the cleanup logs a
    warning and the temporary script is still there on return. *)
Lemma view_render_keeps_file_when_unlink_fails :
  ~ releases_temporaries E_unlink_denied (py "top") cube_world.
Proof.
  intros H. specialize (H (scad_path E_unlink_denied)).
  assert (Hin : scad_path E_unlink_denied
                ∈ [scad_path E_unlink_denied; png_path E_unlink_denied])
    by left.
  apply H in Hin. vm_compute in Hin. discriminate.
Qed.

(** The write of the temporary script comes before the [try] block: when
    it fails (here on a character the locale cannot encode) the file that
    [NamedTemporaryFile] created stays, although it could be removed. *)
Example view_render_write_failure_keeps_file :
  let w := set_script [955] empty_world in
  (view_render E_ok (py "top") w).1
  = Ok (py "Render error: 'ascii' codec can't encode character") /\
  files (view_render E_ok (py "top") w).2 !! scad_path E_ok = Some [] /\
  unlink_err E_ok (scad_path E_ok) = None.
Proof. repeat split; by vm_compute. Qed.

Lemma create_openscad_script_result E S w :
  (create_openscad_script E S w).1 = Ok (updated_message S) /\
  script_content (create_openscad_script E S w).2 = S.
Proof.
  run_tool. cbn.
  destruct (open_w E (STATE_FILE E)); [done|].
  by destruct (dump_state E S).
Qed.

Lemma show_openscad_script_result w :
  show_openscad_script w
  = (Ok (if is_empty (strip (script_content w))
         then py "No script content in scratchpad"
         else py "Current OpenSCAD script:" ++ [LF; LF] ++ script_content w),
     w).
Proof. run_tool. by destruct (is_empty (strip (script_content w))). Qed.

Lemma show_after_create E S w :
  (show_openscad_script (create_openscad_script E S w).2).1
  = Ok (if is_empty (strip S)
        then py "No script content in scratchpad"
        else py "Current OpenSCAD script:" ++ [LF; LF] ++ S).
Proof.
  rewrite show_openscad_script_result.
  by destruct (create_openscad_script_result E S w) as [_ ->].
Qed.

(** C2, as amended.  For every script text [S] that is not blank,
    [create_openscad_script S] followed by [show_openscad_script] returns
    the header line followed by exactly [S]: a text that contains [S]. *)
Theorem create_then_show E S w :
  ~ whitespace_only S ->
  (show_openscad_script (create_openscad_script E S w).2).1
  = Ok (py "Current OpenSCAD script:" ++ [LF; LF] ++ S) /\
  shows_after_create E S w.
Proof.
  intros Hs. apply strip_not_empty in Hs.
  pose proof (show_after_create E S w) as Hshow. rewrite Hs in Hshow.
  split; [exact Hshow|].
  exists (py "Current OpenSCAD script:" ++ [LF; LF] ++ S).
  split; [exact Hshow|].
  rewrite app_assoc. apply contains_app.
Qed.

Lemma create_then_show_witness :
  (show_openscad_script
     (create_openscad_script E_ok (py "cube(10);") empty_world).2).1
  = Ok (py "Current OpenSCAD script:" ++ [LF; LF] ++ py "cube(10);") /\
  shows_after_create E_ok (py "cube(10);") empty_world.
Proof.
  apply (create_then_show E_ok (py "cube(10);") empty_world).
  apply strip_not_empty. reflexivity.
Defined.

(** C2, as stated, fails on a script of one newline: the script is
    stored, and [show_openscad_script] answers that there is none. *)
Lemma create_then_show_blank :
  ~ shows_after_create E_ok [LF] empty_world.
Proof.
  intros (text & Htext & Hin). vm_compute in Htext.
  injection Htext as <-. vm_compute in Hin. discriminate.
Qed.

(** C3.  The normalisation of [export_model_to_stl] does not strip a
    trailing extension only: [str.replace] removes every occurrence.  On
    "part.stl.bak" the compiler is told to write "part.bak.stl", where
    stripping a trailing extension and appending one gives
    "part.stl.bak.stl"; on "x.s.stltl" the result carries the extension
    twice.  [save_openscad_script] does the same with ".scad". *)
Theorem export_strips_every_extension :
  runs (export_model_to_stl E_ok (py "part.stl.bak") cube_world).2
  = [ ([ py "openscad"; py "--render"; py "-o"; py "/work/part.bak.stl";
         py "/tmp/tmpk3v9x1aq.scad" ], 60) ] /\
  strip_trailing_then_append (py ".stl") (py "part.stl.bak")
  = py "part.stl.bak.stl" /\
  stl_path E_ok (py "x.s.stltl") = py "/work/x.stl.stl" /\
  (save_openscad_script E_ok (py "notes.scad.txt") cube_world).1
  = Ok (py "Script saved to /work/notes.txt.scad (1 lines)").
Proof. repeat split; by vm_compute. Qed.

(** What does hold of the two names of the claim: with or without the
    extension, "part" is exported to the same destination. *)
Example export_part :
  stl_path E_ok (py "part") = py "/work/part.stl" /\
  stl_path E_ok (py "part.stl") = py "/work/part.stl" /\
  strip_trailing_then_append (py ".stl") (py "part") = py "part.stl" /\
  strip_trailing_then_append (py ".stl") (py "part.stl") = py "part.stl".
Proof. repeat split; by vm_compute. Qed.

(** In general: a name in which ".stl" does not occur is exported to the
    same destination with or without the extension. *)
Lemma stl_path_plain_name E (stem : str) :
  contains (py ".stl") stem = false ->
  stl_path E stem = WORK_DIR_join E (stem ++ py ".stl") /\
  stl_path E (stem ++ py ".stl") = WORK_DIR_join E (stem ++ py ".stl").
Proof.
  intros H. unfold stl_path.
  by rewrite replace_absent, replace_stl_suffix.
Qed.

Lemma dict_get_preset (view : str) :
  view ∉ preset_names -> dict_get view CAMERA_VIEWS = None.
Proof.
  unfold preset_names. rewrite !not_elem_of_cons.
  intros (? & ? & ? & ? & ? & ? & ? & _).
  unfold CAMERA_VIEWS. cbn [dict_get].
  by rewrite !bool_decide_false by congruence.
Qed.

Lemma keys_CAMERA_VIEWS : keys CAMERA_VIEWS = preset_names.
Proof. reflexivity. Qed.

(** C4, as amended.  When the stored script is not blank, every view
    name outside the seven presets makes [view_render] return the error
    that lists exactly the seven valid names, and the world is left as it
    was: no call of [subprocess.run], no file, no log record. *)
Theorem view_render_invalid_view E view w :
  ~ whitespace_only (script_content w) ->
  view ∉ preset_names ->
  rejects_view E view w.
Proof.
  intros Hs Hv. apply strip_not_empty in Hs. apply dict_get_preset in Hv.
  unfold rejects_view. run_tool. rewrite Hs, Hv.
  unfold invalid_view_error. do 4 f_equal.
Qed.

Lemma view_render_invalid_view_witness :
  rejects_view E_ok (py "diagonal") cube_world.
Proof.
  apply (view_render_invalid_view E_ok (py "diagonal") cube_world).
  - apply strip_not_empty. reflexivity.
  - apply (bool_decide_unpack _). by vm_compute.
Defined.

(** C4, as stated, fails on an empty scratchpad: the guard on the script
    comes first, and the answer is "No script content to render". *)
Lemma view_render_invalid_view_empty_script :
  ~ rejects_view E_ok (py "diagonal") empty_world /\
  view_render E_ok (py "diagonal") empty_world
  = (Ok (py "No script content to render"), empty_world).
Proof.
  split; [|reflexivity].
  unfold rejects_view. intros H. vm_compute in H. discriminate.
Qed.

Lemma view_render_blank E view (w : World) :
  whitespace_only (script_content w) ->
  view_render E view w = (Ok (py "No script content to render"), w).
Proof. intros H. apply strip_empty in H. run_tool. by rewrite H. Qed.

Lemma export_model_to_stl_blank E filename (w : World) :
  whitespace_only (script_content w) ->
  export_model_to_stl E filename w
  = (Ok (py "No script content to export"), w).
Proof. intros H. apply strip_empty in H. run_tool. by rewrite H. Qed.

Lemma save_openscad_script_blank E filename (w : World) :
  whitespace_only (script_content w) ->
  save_openscad_script E filename w
  = (Ok (py "No script content to save"), w).
Proof. intros H. apply strip_empty in H. run_tool. by rewrite H. Qed.

(** C5.  When the stored script is empty or white space only,
    [view_render], [export_model_to_stl] and [save_openscad_script] each
    return their "no content" message and leave the world as it was: no
    call of [subprocess.run], no file written, no log record. *)
Theorem no_content E view filename (w : World) :
  whitespace_only (script_content w) ->
  view_render E view w = (Ok (py "No script content to render"), w) /\
  export_model_to_stl E filename w
  = (Ok (py "No script content to export"), w) /\
  save_openscad_script E filename w
  = (Ok (py "No script content to save"), w).
Proof.
  intros H. split; [|split].
  - by apply view_render_blank.
  - by apply export_model_to_stl_blank.
  - by apply save_openscad_script_blank.
Qed.

Lemma no_content_witness :
  let w := set_script [32; LF; 9] empty_world in
  view_render E_ok (py "top") w = (Ok (py "No script content to render"), w) /\
  export_model_to_stl E_ok (py "part") w
  = (Ok (py "No script content to export"), w) /\
  save_openscad_script E_ok (py "part") w
  = (Ok (py "No script content to save"), w).
Proof.
  apply (no_content E_ok (py "top") (py "part")
           (set_script [32; LF; 9] empty_world)).
  repeat constructor.
Defined.

Lemma timeout_not_generic (msg : str) :
  render_timeout <> py "Render error: " ++ msg /\
  export_timeout <> py "Export error: " ++ msg /\
  render_timeout <> py "OpenSCAD error: " ++ msg /\
  export_timeout <> py "OpenSCAD export error: " ++ msg.
Proof.
  repeat split; intros H.
  - apply (f_equal (fun s : str => s !! 7%nat)) in H. vm_compute in H.
    discriminate.
  - apply (f_equal (fun s : str => s !! 7%nat)) in H. vm_compute in H.
    discriminate.
  - apply (f_equal (fun s : str => s !! 0%nat)) in H. vm_compute in H.
    discriminate.
  - apply (f_equal (fun s : str => s !! 0%nat)) in H. vm_compute in H.
    discriminate.
Qed.

(** C6.  [view_render] runs the compiler with [timeout=30] and
    [export_model_to_stl] with [timeout=60] (one call each, however it
    ends).  When the bound is exceeded, [view_render] returns "Render
    timeout - script may be too complex" and [export_model_to_stl]
    "Export timeout - script may be too complex": two different texts,
    and neither is what the generic handler ("Render error: ...",
    "Export error: ...") or a nonzero exit ("OpenSCAD error: ...",
    "OpenSCAD export error: ...") returns. *)
Theorem timeout_errors E view filename w camera data :
  ~ whitespace_only (script_content w) ->
  dict_get view CAMERA_VIEWS = Some camera ->
  write_text E (scad_path E) (script_content w) = inl data ->
  runs (view_render E view w).2 = runs w ++ [(render_cmd E camera, 30)] /\
  runs (export_model_to_stl E filename w).2
  = runs w ++ [(export_cmd E filename, 60)] /\
  (forall msg fs,
     openscad E (render_cmd E camera) 30 (<[scad_path E := data]> (files w))
     = (TimedOut msg, fs) ->
     (view_render E view w).1 = Ok render_timeout) /\
  (forall msg fs,
     openscad E (export_cmd E filename) 60
       (<[scad_path E := data]> (files w)) = (TimedOut msg, fs) ->
     (export_model_to_stl E filename w).1 = Ok export_timeout) /\
  render_timeout <> export_timeout /\
  (forall msg,
     render_timeout <> py "Render error: " ++ msg /\
     export_timeout <> py "Export error: " ++ msg /\
     render_timeout <> py "OpenSCAD error: " ++ msg /\
     export_timeout <> py "OpenSCAD export error: " ++ msg).
Proof.
  intros Hs Hc Hw. repeat apply conj.
  - destruct (openscad E (render_cmd E camera) 30
                (<[scad_path E := data]> (files w))) as [o fs] eqn:Hrun.
    by destruct (view_render_run E view w camera data o fs Hs Hc Hw Hrun)
      as (_ & _ & _ & ->).
  - destruct (openscad E (export_cmd E filename) 60
                (<[scad_path E := data]> (files w))) as [o fs] eqn:Hrun.
    by destruct (export_run E filename w data o fs Hs Hw Hrun)
      as (_ & _ & _ & ->).
  - intros msg fs Hrun.
    by destruct (view_render_run E view w camera data _ fs Hs Hc Hw Hrun)
      as (-> & _).
  - intros msg fs Hrun.
    by destruct (export_run E filename w data _ fs Hs Hw Hrun) as (-> & _).
  - intros H. vm_compute in H. discriminate.
  - apply timeout_not_generic.
Qed.

Lemma timeout_errors_witness :
  (view_render E_timeout (py "isometric") cube_world).1 = Ok render_timeout /\
  (export_model_to_stl E_timeout (py "part") cube_world).1
  = Ok export_timeout /\
  runs (view_render E_timeout (py "isometric") cube_world).2
  = [(render_cmd E_timeout (py "--camera=10,10,10,60,0,45,25"), 30)] /\
  runs (export_model_to_stl E_timeout (py "part") cube_world).2
  = [(export_cmd E_timeout (py "part"), 60)].
Proof.
  destruct (timeout_errors E_timeout (py "isometric") (py "part") cube_world
              (py "--camera=10,10,10,60,0,45,25")
              (omap Byte.of_N (py "cube(10);")))
    as (Hr & He & Htr & Hte & _).
  - apply strip_not_empty. reflexivity.
  - reflexivity.
  - reflexivity.
  - split; [|split; [|split]].
    + eapply (Htr (py "timed out")). reflexivity.
    + eapply (Hte (py "timed out")). reflexivity.
    + exact Hr.
    + exact He.
Defined.

(** C7.  When the compiler exits with status zero, [view_render] looks
    for the output image: if it is not there the answer is "Render
    failed: No output file generated"; otherwise the answer is the marker
    "data:image/png;base64," followed by a payload that decodes to
    exactly the bytes of the image file. *)
Theorem view_render_success_payload E view w camera data stderr fs :
  ~ whitespace_only (script_content w) ->
  dict_get view CAMERA_VIEWS = Some camera ->
  write_text E (scad_path E) (script_content w) = inl data ->
  openscad E (render_cmd E camera) 30 (<[scad_path E := data]> (files w))
  = (Completed 0 stderr, fs) ->
  match fs !! png_path E with
  | None =>
      (view_render E view w).1
      = Ok (py "Render failed: No output file generated")
  | Some png_data =>
      exists payload,
        (view_render E view w).1 = Ok (py "data:image/png;base64," ++ payload)
        /\ payload = b64encode png_data
        /\ b64decode payload = Some png_data
  end.
Proof.
  intros Hs Hc Hw Hrun.
  destruct (view_render_run E view w camera data _ fs Hs Hc Hw Hrun)
    as (-> & _).
  cbn [render_result Z.eqb].
  destruct (fs !! png_path E) as [png_data|]; [|done].
  exists (b64encode png_data). by rewrite b64decode_b64encode.
Qed.

Lemma view_render_success_payload_witness :
  exists payload,
    (view_render E_ok (py "top") cube_world).1
    = Ok (py "data:image/png;base64," ++ payload)
    /\ payload = b64encode placeholder
    /\ b64decode payload = Some placeholder.
Proof.
  pose proof (view_render_success_payload E_ok (py "top") cube_world
                (py "--camera=0,0,10,0,0,0,25")
                (omap Byte.of_N (py "cube(10);")) []
                (<[png_path E_ok := placeholder]>
                   (<[scad_path E_ok := omap Byte.of_N (py "cube(10);")]> ∅)))
    as H.
  rewrite lookup_insert_eq in H.
  apply H.
  - apply strip_not_empty. reflexivity.
  - reflexivity.
  - reflexivity.
  - reflexivity.
Defined.

(** The defensive branch, run: the compiler exits with status zero and
    writes nothing. *)
Example view_render_no_output :
  view_render E_no_output (py "top") cube_world
  = (Ok (py "Render failed: No output file generated"),
     add_run (render_cmd E_no_output (py "--camera=0,0,10,0,0,0,25")) 30
       (add_log INFO
          (py "Running OpenSCAD command: "
           ++ join (py " ")
                (render_cmd E_no_output (py "--camera=0,0,10,0,0,0,25")))
          cube_world)).
Proof. by vm_compute. Qed.

Lemma create_openscad_script_log E S w msg :
  save_fails E S msg ->
  log (create_openscad_script E S w).2
  = log w ++ [ (ERROR, py "Error saving state: " ++ msg);
               (INFO, py "Script updated: "
                      ++ str_of_nat (length (split LF S)) ++ py " lines, "
                      ++ str_of_nat (length S) ++ py " characters") ].
Proof.
  intros [Hopen|[Hopen Hdump]]; run_tool; cbn; rewrite Hopen; cbn.
  - by rewrite <- app_assoc.
  - rewrite Hdump. cbn. by rewrite <- app_assoc.
Qed.

(** C8, as amended.  When the durable write of [save_state] fails, the
    failure is logged and not surfaced, whatever the text:
    [create_openscad_script] returns its success message with the line
    and character counts, and the script in memory is the new text.
    When that text is not blank, [show_openscad_script] then returns it
    after the header line. *)
Theorem create_survives_failed_save E S w msg :
  save_fails E S msg ->
  (create_openscad_script E S w).1 = Ok (updated_message S) /\
  script_content (create_openscad_script E S w).2 = S /\
  (ERROR, py "Error saving state: " ++ msg)
  ∈ log (create_openscad_script E S w).2 /\
  (~ whitespace_only S ->
   (show_openscad_script (create_openscad_script E S w).2).1
   = Ok (py "Current OpenSCAD script:" ++ [LF; LF] ++ S) /\
   create_unaffected E S w).
Proof.
  intros Hfail.
  destruct (create_openscad_script_result E S w) as [Hres Hscript].
  split; [done|]. split; [done|]. split.
  - rewrite (create_openscad_script_log E S w msg Hfail).
    apply elem_of_app. right. left.
  - intros Hs. apply strip_not_empty in Hs.
    pose proof (show_after_create E S w) as Hshow. rewrite Hs in Hshow.
    split; [done|]. split; [done|]. split; [done|].
    exists (py "Current OpenSCAD script:" ++ [LF; LF] ++ S).
    split; [exact Hshow|]. rewrite app_assoc. apply contains_app.
Qed.

Lemma create_survives_failed_save_witness :
  ((create_openscad_script E_save_denied [9] empty_world).1
   = Ok (updated_message [9]) /\
   script_content (create_openscad_script E_save_denied [9] empty_world).2
   = [9]) /\
  (show_openscad_script
     (create_openscad_script E_save_denied (py "cube(10);") empty_world).2).1
  = Ok (py "Current OpenSCAD script:" ++ [LF; LF] ++ py "cube(10);").
Proof.
  split.
  - destruct (create_survives_failed_save E_save_denied [9] empty_world
                (py "[Errno 13] Permission denied")) as (Hres & Hscript & _).
    + left. reflexivity.
    + split; [exact Hres | exact Hscript].
  - destruct (create_survives_failed_save E_save_denied (py "cube(10);")
                empty_world (py "[Errno 13] Permission denied"))
      as (_ & _ & _ & Hshow).
    + left. reflexivity.
    + apply Hshow. apply strip_not_empty. reflexivity.
Defined.

(** C8, as stated, fails on a script of one tab: the write fails, the
    tab is stored and success is reported, and [show_openscad_script]
    then answers "No script content in scratchpad", not the tab. *)
Lemma create_survives_failed_save_blank :
  save_fails E_save_denied [9] (py "[Errno 13] Permission denied") /\
  ~ create_unaffected E_save_denied [9] empty_world.
Proof.
  split; [left; reflexivity|].
  intros (_ & _ & text & Htext & Hin). vm_compute in Htext.
  injection Htext as <-. vm_compute in Hin. discriminate.
Qed.



(** C10.  A script of white space only is stored by
    [create_openscad_script], which reports success; after that
    [show_openscad_script] answers "No script content in scratchpad"
    (a text that is not the script), and [view_render],
    [export_model_to_stl] and [save_openscad_script] answer and act as
    on an empty scratchpad: their "no content" message, and nothing
    run, written or logged.  (The empty script is covered as well.) *)
Theorem blank_script_stored_but_empty E S view filename w :
  whitespace_only S ->
  let w1 := (create_openscad_script E S w).2 in
  (create_openscad_script E S w).1 = Ok (updated_message S) /\
  script_content w1 = S /\
  show_openscad_script w1 = (Ok (py "No script content in scratchpad"), w1) /\
  py "No script content in scratchpad" <> S /\
  view_render E view w1 = (Ok (py "No script content to render"), w1) /\
  export_model_to_stl E filename w1
  = (Ok (py "No script content to export"), w1) /\
  save_openscad_script E filename w1
  = (Ok (py "No script content to save"), w1) /\
  (view_render E view w1).1 = (view_render E view (set_script [] w1)).1 /\
  (export_model_to_stl E filename w1).1
  = (export_model_to_stl E filename (set_script [] w1)).1 /\
  (save_openscad_script E filename w1).1
  = (save_openscad_script E filename (set_script [] w1)).1.
Proof.
  intros Hs w1.
  destruct (create_openscad_script_result E S w) as [Hres Hscript].
  fold w1 in Hscript.
  assert (Hw1 : whitespace_only (script_content w1)) by by rewrite Hscript.
  assert (Hempty : whitespace_only (script_content (set_script [] w1)))
    by constructor.
  repeat apply conj; try done.
  - rewrite show_openscad_script_result, Hscript.
    apply strip_empty in Hs. by rewrite Hs.
  - intros <-. by inversion Hs.
  - by apply view_render_blank.
  - by apply export_model_to_stl_blank.
  - by apply save_openscad_script_blank.
  - by rewrite !view_render_blank.
  - by rewrite !export_model_to_stl_blank.
  - by rewrite !save_openscad_script_blank.
Qed.

Lemma blank_script_stored_but_empty_witness :
  let w1 := (create_openscad_script E_ok [32; LF] empty_world).2 in
  script_content w1 = [32; LF] /\
  show_openscad_script w1 = (Ok (py "No script content in scratchpad"), w1) /\
  view_render E_ok (py "top") w1 = (Ok (py "No script content to render"), w1).
Proof.
  destruct (blank_script_stored_but_empty E_ok [32; LF] (py "top") (py "part")
              empty_world) as (_ & Hscript & Hshow & _ & Hrender & _).
  - repeat constructor.
  - split; [exact Hscript|]. split; [exact Hshow | exact Hrender].
Defined.

(** ** Further properties of the tools *)

Lemma view_render_unknown_view E view w :
  ~ whitespace_only (script_content w) ->
  dict_get view CAMERA_VIEWS = None ->
  view_render E view w
  = (Ok (py "Invalid view '" ++ view ++ py "'. Available views: "
         ++ join (py ", ") (keys CAMERA_VIEWS)), w).
Proof.
  intros Hs Hv. apply strip_not_empty in Hs. run_tool. by rewrite Hs, Hv.
Qed.

Lemma export_write_failed E filename w msg :
  ~ whitespace_only (script_content w) ->
  write_text E (scad_path E) (script_content w) = inr msg ->
  export_model_to_stl E filename w
  = (Ok (py "Export error: " ++ msg),
     add_log ERROR (py "Error during export: " ++ msg)
       (set_files (<[scad_path E := []]> (files w)) w)).
Proof.
  intros Hs Hw. apply strip_not_empty in Hs.
  run_tool. rewrite Hs. fold (scad_path E). by rewrite Hw.
Qed.

Lemma save_open_failed E filename w msg :
  ~ whitespace_only (script_content w) ->
  open_w E (script_path E filename) = Some msg ->
  save_openscad_script E filename w
  = (Ok (py "Save error: " ++ msg),
     add_log ERROR (py "Error saving script: " ++ msg) w).
Proof.
  intros Hs Ho. apply strip_not_empty in Hs.
  run_tool. rewrite Hs. fold (script_path E filename). by rewrite Ho.
Qed.

Lemma save_write_failed E filename w msg :
  ~ whitespace_only (script_content w) ->
  open_w E (script_path E filename) = None ->
  write_text E (script_path E filename) (script_content w) = inr msg ->
  save_openscad_script E filename w
  = (Ok (py "Save error: " ++ msg),
     add_log ERROR (py "Error saving script: " ++ msg)
       (set_files (<[script_path E filename := []]> (files w)) w)).
Proof.
  intros Hs Ho Hw. apply strip_not_empty in Hs.
  run_tool. rewrite Hs. fold (script_path E filename). by rewrite Ho, Hw.
Qed.

Lemma save_written E filename w data :
  ~ whitespace_only (script_content w) ->
  open_w E (script_path E filename) = None ->
  write_text E (script_path E filename) (script_content w) = inl data ->
  save_openscad_script E filename w
  = (Ok (py "Script saved to " ++ script_path E filename ++ py " ("
         ++ str_of_nat (length (split LF (script_content w)))
         ++ py " lines)"),
     add_log INFO
       (py "Script saved: " ++ script_path E filename ++ py " ("
        ++ str_of_nat (length (split LF (script_content w))) ++ py " lines)")
       (set_files (<[script_path E filename := data]> (files w)) w)).
Proof.
  intros Hs Ho Hw. apply strip_not_empty in Hs.
  run_tool. rewrite Hs. fold (script_path E filename). by rewrite Ho, Hw.
Qed.

Lemma whitespace_only_dec (s : str) :
  whitespace_only s \/ ~ whitespace_only s.
Proof.
  destruct (is_empty (strip s)) eqn:H.
  - left. by apply strip_empty.
  - right. by apply strip_not_empty.
Qed.

(** X1.  No tool raises: whatever the environment does (a write or an
    unlink refused, a compiler that is missing, hangs or fails), each of
    the five tools returns a text. *)
Theorem tools_always_answer E view filename S w :
  (exists text, (show_openscad_script w).1 = Ok text) /\
  (exists text, (create_openscad_script E S w).1 = Ok text) /\
  (exists text, (view_render E view w).1 = Ok text) /\
  (exists text, (export_model_to_stl E filename w).1 = Ok text) /\
  (exists text, (save_openscad_script E filename w).1 = Ok text).
Proof.
  split; [|split; [|split; [|split]]].
  - rewrite show_openscad_script_result. eauto.
  - destruct (create_openscad_script_result E S w) as [-> _]. eauto.
  - destruct (whitespace_only_dec (script_content w)) as [Hs|Hs].
    { rewrite view_render_blank by done. eauto. }
    destruct (dict_get view CAMERA_VIEWS) as [camera|] eqn:Hv.
    2:{ rewrite view_render_unknown_view by done. eauto. }
    destruct (write_text E (scad_path E) (script_content w))
      as [data|msg] eqn:Hw.
    2:{ rewrite (view_render_write_failed E view w camera msg) by done.
        eauto. }
    destruct (openscad E (render_cmd E camera) 30
                (<[scad_path E := data]> (files w))) as [o fs] eqn:Hrun.
    destruct (view_render_run E view w camera data o fs Hs Hv Hw Hrun)
      as (-> & _). eauto.
  - destruct (whitespace_only_dec (script_content w)) as [Hs|Hs].
    { rewrite export_model_to_stl_blank by done. eauto. }
    destruct (write_text E (scad_path E) (script_content w))
      as [data|msg] eqn:Hw.
    2:{ rewrite (export_write_failed E filename w msg) by done. eauto. }
    destruct (openscad E (export_cmd E filename) 60
                (<[scad_path E := data]> (files w))) as [o fs] eqn:Hrun.
    destruct (export_run E filename w data o fs Hs Hw Hrun) as (-> & _).
    eauto.
  - destruct (whitespace_only_dec (script_content w)) as [Hs|Hs].
    { rewrite save_openscad_script_blank by done. eauto. }
    destruct (open_w E (script_path E filename)) as [msg|] eqn:Ho.
    { rewrite (save_open_failed E filename w msg) by done. eauto. }
    destruct (write_text E (script_path E filename) (script_content w))
      as [data|msg] eqn:Hw.
    + rewrite (save_written E filename w data) by done. eauto.
    + rewrite (save_write_failed E filename w msg) by done. eauto.
Qed.

Lemma view_render_script E view w :
  script_content (view_render E view w).2 = script_content w.
Proof.
  destruct (whitespace_only_dec (script_content w)) as [Hs|Hs].
  { by rewrite view_render_blank. }
  destruct (dict_get view CAMERA_VIEWS) as [camera|] eqn:Hv.
  2:{ by rewrite view_render_unknown_view. }
  destruct (write_text E (scad_path E) (script_content w))
    as [data|msg] eqn:Hw.
  2:{ by rewrite (view_render_write_failed E view w camera msg). }
  destruct (openscad E (render_cmd E camera) 30
              (<[scad_path E := data]> (files w))) as [o fs] eqn:Hrun.
  by destruct (view_render_run E view w camera data o fs Hs Hv Hw Hrun)
    as (_ & -> & _).
Qed.

Lemma export_model_to_stl_script E filename w :
  script_content (export_model_to_stl E filename w).2 = script_content w.
Proof.
  destruct (whitespace_only_dec (script_content w)) as [Hs|Hs].
  { by rewrite export_model_to_stl_blank. }
  destruct (write_text E (scad_path E) (script_content w))
    as [data|msg] eqn:Hw.
  2:{ by rewrite (export_write_failed E filename w msg). }
  destruct (openscad E (export_cmd E filename) 60
              (<[scad_path E := data]> (files w))) as [o fs] eqn:Hrun.
  by destruct (export_run E filename w data o fs Hs Hw Hrun)
    as (_ & -> & _).
Qed.

Lemma save_openscad_script_script E filename w :
  script_content (save_openscad_script E filename w).2 = script_content w.
Proof.
  destruct (whitespace_only_dec (script_content w)) as [Hs|Hs].
  { by rewrite save_openscad_script_blank. }
  destruct (open_w E (script_path E filename)) as [msg|] eqn:Ho.
  { by rewrite (save_open_failed E filename w msg). }
  destruct (write_text E (script_path E filename) (script_content w))
    as [data|msg] eqn:Hw.
  - by rewrite (save_written E filename w data).
  - by rewrite (save_write_failed E filename w msg).
Qed.

(** X2.  Only [create_openscad_script] changes the script: after
    [show_openscad_script], [view_render], [export_model_to_stl] or
    [save_openscad_script], on any branch, the script in memory is what
    it was. *)
Theorem readers_keep_script E view filename w :
  script_content (show_openscad_script w).2 = script_content w /\
  script_content (view_render E view w).2 = script_content w /\
  script_content (export_model_to_stl E filename w).2 = script_content w /\
  script_content (save_openscad_script E filename w).2 = script_content w.
Proof.
  split; [|split; [|split]].
  - by rewrite show_openscad_script_result.
  - apply view_render_script.
  - apply export_model_to_stl_script.
  - apply save_openscad_script_script.
Qed.

(** X3.  [show_openscad_script] reads only: it leaves the world as it
    found it, so a second call returns the text of the first. *)
Theorem show_twice w :
  (show_openscad_script w).2 = w /\
  show_openscad_script (show_openscad_script w).2 = show_openscad_script w.
Proof.
  assert (H : (show_openscad_script w).2 = w)
    by by rewrite show_openscad_script_result.
  split; [done|]. by rewrite H.
Qed.

(** X4.  How the answer of [view_render] follows the compiler: a
    nonzero exit status gives "OpenSCAD error: " followed by the text of
    the error stream, unchanged; a compiler that cannot be started gives
    "Render error: " followed by the text of the exception. *)
Theorem view_render_failure_text E view w camera data o fs :
  ~ whitespace_only (script_content w) ->
  dict_get view CAMERA_VIEWS = Some camera ->
  write_text E (scad_path E) (script_content w) = inl data ->
  openscad E (render_cmd E camera) 30 (<[scad_path E := data]> (files w))
  = (o, fs) ->
  match o with
  | Completed returncode stderr =>
      returncode <> 0%Z ->
      (view_render E view w).1 = Ok (py "OpenSCAD error: " ++ stderr)
  | NotStarted msg =>
      (view_render E view w).1 = Ok (py "Render error: " ++ msg)
  | TimedOut _ => True
  end.
Proof.
  intros Hs Hv Hw Hrun.
  destruct (view_render_run E view w camera data o fs Hs Hv Hw Hrun)
    as (-> & _).
  destruct o as [returncode stderr|msg|msg]; cbn [render_result]; try done.
  intros Hrc. apply Z.eqb_neq in Hrc. by rewrite Hrc.
Qed.

Lemma view_render_failure_text_witness :
  (view_render E_exit_1 (py "front") cube_world).1
  = Ok (py "OpenSCAD error: " ++ py "ERROR: Parser error in line 1").
Proof.
  pose proof (view_render_failure_text E_exit_1 (py "front") cube_world
                (py "--camera=0,0,10,0,0,0,25")
                (omap Byte.of_N (py "cube(10);"))
                (Completed 1 (py "ERROR: Parser error in line 1"))
                (<[scad_path E_exit_1 := omap Byte.of_N (py "cube(10);")]> ∅))
    as H.
  cbv beta iota in H. apply H.
  - apply strip_not_empty. reflexivity.
  - reflexivity.
  - reflexivity.
  - reflexivity.
  - discriminate.
Defined.

(** X5.  The same for [export_model_to_stl]: a nonzero exit status gives
    "OpenSCAD export error: " followed by the error stream, unchanged; a
    compiler that cannot be started gives "Export error: " followed by
    the text of the exception. *)
Theorem export_failure_text E filename w data o fs :
  ~ whitespace_only (script_content w) ->
  write_text E (scad_path E) (script_content w) = inl data ->
  openscad E (export_cmd E filename) 60 (<[scad_path E := data]> (files w))
  = (o, fs) ->
  match o with
  | Completed returncode stderr =>
      returncode <> 0%Z ->
      (export_model_to_stl E filename w).1
      = Ok (py "OpenSCAD export error: " ++ stderr)
  | NotStarted msg =>
      (export_model_to_stl E filename w).1 = Ok (py "Export error: " ++ msg)
  | TimedOut _ => True
  end.
Proof.
  intros Hs Hw Hrun.
  destruct (export_run E filename w data o fs Hs Hw Hrun) as (-> & _).
  destruct o as [returncode stderr|msg|msg]; cbn [export_result]; try done.
  intros Hrc. apply Z.eqb_neq in Hrc. by rewrite Hrc.
Qed.

Lemma export_failure_text_witness :
  (export_model_to_stl E_refused (py "part") cube_world).1
  = Ok (py "Export error: "
        ++ py "[Errno 2] No such file or directory: 'openscad'").
Proof.
  pose proof (export_failure_text E_refused (py "part") cube_world
                (omap Byte.of_N (py "cube(10);"))
                (NotStarted
                   (py "[Errno 2] No such file or directory: 'openscad'"))
                (<[scad_path E_refused := omap Byte.of_N (py "cube(10);")]> ∅))
    as H.
  cbv beta iota in H. apply H.
  - apply strip_not_empty. reflexivity.
  - reflexivity.
  - reflexivity.
Defined.

(** X6.  A successful export reports the size in bytes of the mesh the
    compiler wrote, and the mesh stays: the cleanup removes the
    temporary script only.  (The destination is taken to differ from
    the temporary script's path.) *)
Theorem export_success E filename w data stderr fs mesh :
  ~ whitespace_only (script_content w) ->
  write_text E (scad_path E) (script_content w) = inl data ->
  openscad E (export_cmd E filename) 60 (<[scad_path E := data]> (files w))
  = (Completed 0 stderr, fs) ->
  fs !! stl_path E filename = Some mesh ->
  stl_path E filename <> scad_path E ->
  (export_model_to_stl E filename w).1
  = Ok (py "STL exported successfully to " ++ stl_path E filename
        ++ py " (" ++ str_of_nat (length mesh) ++ py " bytes)") /\
  files (export_model_to_stl E filename w).2 !! stl_path E filename
  = Some mesh.
Proof.
  intros Hs Hw Hrun Hmesh Hne.
  destruct (export_run E filename w data _ fs Hs Hw Hrun)
    as (-> & _ & -> & _).
  cbn [export_result Z.eqb]. rewrite Hmesh. split; [done|].
  by rewrite removed_other.
Qed.

Lemma export_success_witness :
  (export_model_to_stl E_ok (py "mypart") cube_world).1
  = Ok (py "STL exported successfully to " ++ stl_path E_ok (py "mypart")
        ++ py " (" ++ str_of_nat (length placeholder) ++ py " bytes)") /\
  files (export_model_to_stl E_ok (py "mypart") cube_world).2
  !! stl_path E_ok (py "mypart") = Some placeholder.
Proof.
  apply (export_success E_ok (py "mypart") cube_world
           (omap Byte.of_N (py "cube(10);")) []
           (<[stl_path E_ok (py "mypart") := placeholder]>
              (<[scad_path E_ok := omap Byte.of_N (py "cube(10);")]> ∅))).
  - apply strip_not_empty. reflexivity.
  - reflexivity.
  - reflexivity.
  - apply lookup_insert_eq.
  - intros H. vm_compute in H. discriminate.
Defined.

(** X7.  When the compiler exits with status zero and no file is at the
    destination afterwards, [export_model_to_stl] answers "Export
    failed: No STL file generated". *)
Theorem export_no_output E filename w data stderr fs :
  ~ whitespace_only (script_content w) ->
  write_text E (scad_path E) (script_content w) = inl data ->
  openscad E (export_cmd E filename) 60 (<[scad_path E := data]> (files w))
  = (Completed 0 stderr, fs) ->
  fs !! stl_path E filename = None ->
  (export_model_to_stl E filename w).1
  = Ok (py "Export failed: No STL file generated").
Proof.
  intros Hs Hw Hrun Hnone.
  destruct (export_run E filename w data _ fs Hs Hw Hrun) as (-> & _).
  cbn [export_result Z.eqb]. by rewrite Hnone.
Qed.

Lemma export_no_output_witness :
  (export_model_to_stl E_no_output (py "part") cube_world).1
  = Ok (py "Export failed: No STL file generated").
Proof.
  apply (export_no_output E_no_output (py "part") cube_world
           (omap Byte.of_N (py "cube(10);")) []
           (<[scad_path E_no_output := omap Byte.of_N (py "cube(10);")]> ∅)).
  - apply strip_not_empty. reflexivity.
  - reflexivity.
  - reflexivity.
  - by vm_compute.
Defined.

(** X8.  [export_model_to_stl] leaves no temporary script behind: once
    the script has been written, and unless [os.unlink] itself fails, the
    path is absent on return, however the compiler ends. *)
Theorem export_releases_temporary E filename w data :
  ~ whitespace_only (script_content w) ->
  write_text E (scad_path E) (script_content w) = inl data ->
  unlink_err E (scad_path E) = None ->
  files (export_model_to_stl E filename w).2 !! scad_path E = None.
Proof.
  intros Hs Hw Hu.
  destruct (openscad E (export_cmd E filename) 60
              (<[scad_path E := data]> (files w))) as [o fs] eqn:Hrun.
  destruct (export_run E filename w data o fs Hs Hw Hrun)
    as (_ & _ & -> & _).
  by apply removed_gone.
Qed.

Lemma export_releases_temporary_witness :
  files (export_model_to_stl E_timeout (py "part") cube_world).2
  !! scad_path E_timeout = None.
Proof.
  apply (export_releases_temporary E_timeout (py "part") cube_world
           (omap Byte.of_N (py "cube(10);"))).
  - apply strip_not_empty. reflexivity.
  - reflexivity.
  - reflexivity.
Defined.

(** X9.  The tools delete nothing but their temporary files: a path
    other than the temporary script (and, for [view_render], the
    temporary image) and other than the log file holds on return what
    the compiler left there. *)
Theorem cleanup_spares_other_files E view filename w camera data q :
  ~ whitespace_only (script_content w) ->
  dict_get view CAMERA_VIEWS = Some camera ->
  write_text E (scad_path E) (script_content w) = inl data ->
  q <> scad_path E ->
  q <> LOG_FILE ->
  (q <> png_path E ->
   files (view_render E view w).2 !! q
   = (openscad E (render_cmd E camera) 30
        (<[scad_path E := data]> (files w))).2 !! q) /\
  files (export_model_to_stl E filename w).2 !! q
  = (openscad E (export_cmd E filename) 60
       (<[scad_path E := data]> (files w))).2 !! q.
Proof.
  intros Hs Hv Hw Hq _. split.
  - intros Hq'.
    destruct (openscad E (render_cmd E camera) 30
                (<[scad_path E := data]> (files w))) as [o fs] eqn:Hrun.
    destruct (view_render_run E view w camera data o fs Hs Hv Hw Hrun)
      as (_ & _ & -> & _).
    by rewrite !removed_other.
  - destruct (openscad E (export_cmd E filename) 60
                (<[scad_path E := data]> (files w))) as [o fs] eqn:Hrun.
    destruct (export_run E filename w data o fs Hs Hw Hrun)
      as (_ & _ & -> & _).
    by rewrite removed_other.
Qed.

Lemma cleanup_spares_other_files_witness :
  files (export_model_to_stl E_ok (py "part") cube_world).2
  !! py "/work/part.stl" = Some placeholder.
Proof.
  destruct (cleanup_spares_other_files E_ok (py "top") (py "part") cube_world
              (py "--camera=0,0,10,0,0,0,25")
              (omap Byte.of_N (py "cube(10);")) (py "/work/part.stl"))
    as [_ H].
  - apply strip_not_empty. reflexivity.
  - reflexivity.
  - reflexivity.
  - intros H. vm_compute in H. discriminate.
  - intros H. vm_compute in H. discriminate.
  - rewrite H. by vm_compute.
Defined.

(** X10.  When the temporary script cannot be written, [view_render] and
    [export_model_to_stl] answer with their generic error and the text
    of the exception, the compiler is not run, and the file that
    [NamedTemporaryFile] created is still there on return: the write
    comes before the [try] whose [finally] cleans up. *)
Theorem temporary_write_failure E view filename w msg :
  ~ whitespace_only (script_content w) ->
  is_Some (dict_get view CAMERA_VIEWS) ->
  write_text E (scad_path E) (script_content w) = inr msg ->
  ((view_render E view w).1 = Ok (py "Render error: " ++ msg) /\
   runs (view_render E view w).2 = runs w /\
   files (view_render E view w).2 !! scad_path E = Some []) /\
  ((export_model_to_stl E filename w).1 = Ok (py "Export error: " ++ msg) /\
   runs (export_model_to_stl E filename w).2 = runs w /\
   files (export_model_to_stl E filename w).2 !! scad_path E = Some []).
Proof.
  intros Hs [camera Hv] Hw.
  rewrite (view_render_write_failed E view w camera msg Hs Hv Hw).
  rewrite (export_write_failed E filename w msg Hs Hw).
  cbn. by rewrite lookup_insert_eq.
Qed.

Lemma temporary_write_failure_witness :
  (export_model_to_stl E_ok (py "part") (set_script [955] empty_world)).1
  = Ok (py "Export error: " ++ py "'ascii' codec can't encode character") /\
  files (export_model_to_stl E_ok (py "part")
           (set_script [955] empty_world)).2 !! scad_path E_ok = Some [].
Proof.
  destruct (temporary_write_failure E_ok (py "top") (py "part")
              (set_script [955] empty_world)
              (py "'ascii' codec can't encode character"))
    as [_ (Hr & _ & Hf)].
  - apply strip_not_empty. reflexivity.
  - vm_compute. eauto.
  - reflexivity.
  - split; [exact Hr | exact Hf].
Defined.

Transparent split.

(** [s.split(sep)] has one part more than [s] has separators. *)
Lemma split_length (sep : N) (s : str) :
  length (split sep s) = S (length (filter (fun c => c = sep) s)).
Proof.
  induction s as [|c s IH]; [done|].
  cbn [split]. destruct (N.eqb_spec c sep) as [->|Hne].
  - rewrite filter_cons_True by done. cbn [length]. by rewrite IH.
  - rewrite filter_cons_False by done.
    destruct (split sep s) as [|hd tl]; [done|]. exact IH.
Qed.

Opaque split.

(** X11.  [create_openscad_script] counts as Python does: the number of
    lines it reports is one more than the number of newline characters
    of the text (an empty text is one line, a final newline opens a
    line), the number of characters is the length of the text. *)
Theorem create_counts E text w :
  (create_openscad_script E text w).1
  = Ok (py "OpenSCAD script updated successfully ("
        ++ str_of_nat (1 + newlines text) ++ py " lines, "
        ++ str_of_nat (length text) ++ py " characters)").
Proof.
  destruct (create_openscad_script_result E text w) as [-> _].
  unfold updated_message, newlines. by rewrite split_length.
Qed.

(** X12.  [create_openscad_script] runs no process and, the log file
    apart, touches no file but the state file; when the state file can
    be opened and the record written, the state file holds the record
    on return. *)
Theorem create_effects E text w :
  runs (create_openscad_script E text w).2 = runs w /\
  (forall q, q <> STATE_FILE E -> q <> LOG_FILE ->
     files (create_openscad_script E text w).2 !! q = files w !! q) /\
  (forall record,
     STATE_FILE E <> LOG_FILE ->
     open_w E (STATE_FILE E) = None ->
     dump_state E text = inl record ->
     files (create_openscad_script E text w).2 !! STATE_FILE E
     = Some record).
Proof.
  run_tool. cbn.
  destruct (open_w E (STATE_FILE E)) as [msg|]; cbn.
  { repeat split; try done. }
  destruct (dump_state E text) as [record|msg]; cbn.
  - repeat split; try done.
    + intros q Hq _. by rewrite lookup_insert_ne.
    + intros record' _ _ [= <-]. by rewrite lookup_insert_eq.
  - repeat split; try done.
    intros q Hq _. by rewrite lookup_insert_ne.
Qed.

(** X13.  [save_openscad_script] writes the script as it is: when the
    script is not blank and the destination can be opened and written,
    the destination holds on return the bytes the script encodes to,
    every other file but the log file is untouched, no process is run,
    the log gets the record "Script saved: ...", and the answer names
    the destination and the number of lines. *)
Theorem save_writes_script E filename w data :
  ~ whitespace_only (script_content w) ->
  script_path E filename <> LOG_FILE ->
  open_w E (script_path E filename) = None ->
  write_text E (script_path E filename) (script_content w) = inl data ->
  (save_openscad_script E filename w).1
  = Ok (py "Script saved to " ++ script_path E filename ++ py " ("
        ++ str_of_nat (1 + newlines (script_content w)) ++ py " lines)") /\
  files (save_openscad_script E filename w).2 !! script_path E filename
  = Some data /\
  (forall q, q <> script_path E filename -> q <> LOG_FILE ->
     files (save_openscad_script E filename w).2 !! q = files w !! q) /\
  runs (save_openscad_script E filename w).2 = runs w /\
  log (save_openscad_script E filename w).2
  = log w ++ [(INFO, py "Script saved: " ++ script_path E filename ++ py " ("
                     ++ str_of_nat (1 + newlines (script_content w))
                     ++ py " lines)")].
Proof.
  intros Hs _ Ho Hw. rewrite (save_written E filename w data Hs Ho Hw).
  cbn. unfold newlines. rewrite split_length.
  split; [done|]. split; [by rewrite lookup_insert_eq|].
  split; [|done]. intros q Hq _. by rewrite lookup_insert_ne.
Qed.

Lemma save_writes_script_witness :
  files (save_openscad_script E_ok (py "part") cube_world).2
  !! script_path E_ok (py "part") = Some (omap Byte.of_N (py "cube(10);")) /\
  runs (save_openscad_script E_ok (py "part") cube_world).2
  = runs cube_world.
Proof.
  destruct (save_writes_script E_ok (py "part") cube_world
              (omap Byte.of_N (py "cube(10);")))
    as (_ & Hfile & _ & Hruns & _).
  - apply strip_not_empty. reflexivity.
  - intros H. vm_compute in H. discriminate.
  - reflexivity.
  - reflexivity.
  - split; [exact Hfile | exact Hruns].
Defined.

(** X14.  Unlike [save_state], [save_openscad_script] reports a failed
    write to the caller.  With a script that is not blank: when the
    destination cannot be opened the answer is "Save error: " followed
    by the text of the exception, the error is logged, and no file other
    than the log file is touched; when the write itself fails the
    answer is of the same form. *)
Theorem save_failure_reported E filename w msg :
  ~ whitespace_only (script_content w) ->
  (open_w E (script_path E filename) = Some msg ->
   (save_openscad_script E filename w).1 = Ok (py "Save error: " ++ msg) /\
   (forall q, q <> LOG_FILE ->
      files (save_openscad_script E filename w).2 !! q = files w !! q) /\
   log (save_openscad_script E filename w).2
   = log w ++ [(ERROR, py "Error saving script: " ++ msg)]) /\
  (open_w E (script_path E filename) = None ->
   write_text E (script_path E filename) (script_content w) = inr msg ->
   (save_openscad_script E filename w).1 = Ok (py "Save error: " ++ msg)).
Proof.
  intros Hs. split.
  - intros Ho. by rewrite (save_open_failed E filename w msg Hs Ho).
  - intros Ho Hw. by rewrite (save_write_failed E filename w msg Hs Ho Hw).
Qed.

Lemma save_failure_reported_witness :
  (save_openscad_script E_ok (py "part") (set_script [955] empty_world)).1
  = Ok (py "Save error: " ++ py "'ascii' codec can't encode character").
Proof.
  destruct (save_failure_reported E_ok (py "part")
              (set_script [955] empty_world)
              (py "'ascii' codec can't encode character")) as [_ H].
  - apply strip_not_empty. reflexivity.
  - apply H; reflexivity.
Defined.

(** ** Start-up *)

Ltac run_startup :=
  unfold init_state, load_state, main, put_script; run_tool.

Lemma load_state_missing E json_load w :
  files w !! STATE_FILE E = None ->
  load_state E json_load w
  = (Ok tt, add_log INFO (py "No existing state file, starting fresh") w).
Proof.
  intros H. run_startup. rewrite H. by rewrite bool_decide_false by by intros [].
Qed.

Lemma load_state_parsed E json_load w raw :
  files w !! STATE_FILE E = Some raw ->
  load_state E json_load w
  = match json_load raw with
    | JsonError msg =>
        (Ok tt, set_script []
                  (add_log ERROR (py "Error loading state: " ++ msg) w))
    | JsonObject data =>
        (Ok tt, add_log INFO (py "State loaded from file")
                  (set_script (default [] data) w))
    end.
Proof.
  intros H. run_startup. rewrite H. rewrite bool_decide_true by eauto.
  cbn. rewrite ?H. by destruct (json_load raw).
Qed.

(** X15.  Loading the state never fails: whatever the state file holds,
    [load_state] returns normally, having run no process and changed no
    file other than the log file (every branch logs one record). *)
Theorem load_state_harmless E json_load w :
  (load_state E json_load w).1 = Ok tt /\
  (forall q, q <> LOG_FILE ->
     files (load_state E json_load w).2 !! q = files w !! q) /\
  runs (load_state E json_load w).2 = runs w /\
  length (log (load_state E json_load w).2) = S (length (log w)).
Proof.
  destruct (files w !! STATE_FILE E) as [raw|] eqn:H.
  - rewrite (load_state_parsed E json_load w raw H).
    destruct (json_load raw); cbn; rewrite length_app;
      repeat split; try done; cbn; lia.
  - rewrite (load_state_missing E json_load w H). cbn. rewrite length_app.
    repeat split; try done. cbn. lia.
Qed.

(** X16.  Without a state file the server starts with an empty script,
    and says so in the log. *)
Theorem init_state_fresh E json_load w :
  files w !! STATE_FILE E = None ->
  script_content (init_state E json_load w).2 = [] /\
  log (init_state E json_load w).2
  = log w ++ [(INFO, py "No existing state file, starting fresh")].
Proof.
  intros H. unfold init_state, put_script, mbind, M_bind.
  by rewrite load_state_missing.
Qed.

Lemma init_state_fresh_witness :
  script_content (init_state E_ok stub_json_load cube_world).2 = [] /\
  log (init_state E_ok stub_json_load cube_world).2
  = log cube_world ++ [(INFO, py "No existing state file, starting fresh")].
Proof.
  apply (init_state_fresh E_ok stub_json_load cube_world). reflexivity.
Defined.

(** X17.  A state file that cannot be read or parsed is not fatal: the
    error is logged and the script is empty, whatever it was before. *)
Theorem load_state_corrupt E json_load w raw msg :
  files w !! STATE_FILE E = Some raw ->
  json_load raw = JsonError msg ->
  load_state E json_load w
  = (Ok tt, set_script []
              (add_log ERROR (py "Error loading state: " ++ msg) w)).
Proof.
  intros H Hj. by rewrite (load_state_parsed E json_load w raw H), Hj.
Qed.

Lemma load_state_corrupt_witness :
  let w := set_files {[ STATE_FILE E_ok := [] ]} cube_world in
  load_state E_ok stub_json_load w
  = (Ok tt, set_script []
              (add_log ERROR
                 (py "Error loading state: "
                  ++ py "Expecting value: line 1 column 1 (char 0)") w)).
Proof.
  apply (load_state_corrupt E_ok stub_json_load
           (set_files {[ STATE_FILE E_ok := [] ]} cube_world) []).
  - apply lookup_singleton_eq.
  - reflexivity.
Defined.

(** X18.  A record without the key ['script_content'] loads as the
    empty script; a record with it loads as its value. *)
Theorem load_state_record E json_load w raw data :
  files w !! STATE_FILE E = Some raw ->
  json_load raw = JsonObject data ->
  script_content (load_state E json_load w).2 = default [] data /\
  log (load_state E json_load w).2
  = log w ++ [(INFO, py "State loaded from file")].
Proof.
  intros H Hj. by rewrite (load_state_parsed E json_load w raw H), Hj.
Qed.

Lemma load_state_record_witness :
  let w := set_files {[ STATE_FILE E_ok := [x7b; x7d] ]} cube_world in
  script_content (load_state E_ok stub_json_load w).2 = [] /\
  log (load_state E_ok stub_json_load w).2
  = log w ++ [(INFO, py "State loaded from file")].
Proof.
  apply (load_state_record E_ok stub_json_load
           (set_files {[ STATE_FILE E_ok := [x7b; x7d] ]} cube_world)
           [x7b; x7d] None).
  - apply lookup_singleton_eq.
  - reflexivity.
Defined.

(** X19.  The script survives a restart: after a
    [create_openscad_script] whose record reached the state file, a
    process started on the same files, with a JSON reader that reads
    the record back, has the script in memory. *)
Theorem script_survives_restart E json_load text w w' record :
  open_w E (STATE_FILE E) = None ->
  dump_state E text = inl record ->
  json_load record = JsonObject (Some text) ->
  files w' = files (create_openscad_script E text w).2 ->
  script_content (init_state E json_load w').2 = text.
Proof.
  intros Ho Hd Hj Hfiles.
  assert (Hrec : files (create_openscad_script E text w).2 !! STATE_FILE E
                 = Some record).
  { run_tool. cbn. rewrite Ho. cbn. rewrite Hd. cbn.
    by rewrite lookup_insert_eq. }
  unfold init_state, put_script, mbind, M_bind.
  rewrite (load_state_parsed E json_load (set_script [] w') record).
  - by rewrite Hj.
  - cbn. by rewrite Hfiles.
Qed.

Lemma script_survives_restart_witness :
  script_content
    (init_state E_ok stub_json_load
       (set_files
          (files (create_openscad_script E_ok (py "cube(10);")
                    empty_world).2) empty_world)).2
  = py "cube(10);".
Proof.
  apply (script_survives_restart E_ok stub_json_load (py "cube(10);")
           empty_world _ (omap Byte.of_N (py "cube(10);"))).
  - reflexivity.
  - reflexivity.
  - reflexivity.
  - reflexivity.
Defined.

(** X20.  The availability check of [main] is never fatal: whether the
    compiler answers, fails, hangs or is missing, [main] goes on
    normally, having called [openscad --version] exactly once, with a
    bound of 5 seconds, and left the script alone. *)
Theorem main_check_harmless E WORK_DIR w :
  (main E WORK_DIR w).1 = Ok tt /\
  runs (main E WORK_DIR w).2
  = runs w ++ [([py "openscad"; py "--version"], 5)] /\
  script_content (main E WORK_DIR w).2 = script_content w.
Proof.
  run_startup. cbn.
  destruct (openscad E [py "openscad"; py "--version"] 5 (files w))
    as [[returncode stderr|msg|msg] fs]; cbn; try done.
  by destruct (returncode =? 0)%Z.
Qed.

(** ** File names, views and the payload *)

Lemma startswith_scad_app (s : str) :
  s <> [] -> startswith (py ".scad") s = false ->
  startswith (py ".scad") (s ++ py ".scad") = false.
Proof.
  intros Hne H.
  destruct s as [|c0 [|c1 [|c2 [|c3 [|c4 s]]]]]; [done|..];
    vm_compute in H |- *.
  all: repeat match goal with
       | |- context [match ?c with _ => _ end] => destruct c; try done
       end.
Qed.

Lemma replace_scad_suffix (stem : str) :
  contains (py ".scad") stem = false ->
  replace (py ".scad") (py "") (stem ++ py ".scad") = stem.
Proof.
  induction stem as [|c stem IH]; intros H.
  - reflexivity.
  - pose proof H as H'. simpl in H'. apply orb_false_iff in H' as [Hc Hs].
    change ((c :: stem) ++ py ".scad") with (c :: (stem ++ py ".scad")).
    rewrite replace_no_match.
    + by rewrite IH.
    + by apply (startswith_scad_app (c :: stem)).
Qed.

(** X21.  The extension is optional: a name in which ".stl" does not
    occur is exported to the same destination with or without ".stl",
    and a name in which ".scad" does not occur is saved to the same
    destination with or without ".scad"; the destination is the name
    with the extension once. *)
Theorem extension_optional E (stem : str) :
  (contains (py ".stl") stem = false ->
   stl_path E stem = WORK_DIR_join E (stem ++ py ".stl") /\
   stl_path E (stem ++ py ".stl") = WORK_DIR_join E (stem ++ py ".stl")) /\
  (contains (py ".scad") stem = false ->
   script_path E stem = WORK_DIR_join E (stem ++ py ".scad") /\
   script_path E (stem ++ py ".scad")
   = WORK_DIR_join E (stem ++ py ".scad")).
Proof.
  split; intros H.
  - unfold stl_path. by rewrite replace_absent, replace_stl_suffix.
  - unfold script_path. by rewrite replace_absent, replace_scad_suffix.
Qed.

Lemma extension_optional_witness :
  stl_path E_ok (py "part") = WORK_DIR_join E_ok (py "part" ++ py ".stl") /\
  stl_path E_ok (py "part" ++ py ".stl")
  = WORK_DIR_join E_ok (py "part" ++ py ".stl").
Proof.
  apply (extension_optional E_ok (py "part")). reflexivity.
Defined.

(** X22.  The views [view_render] accepts are the seven names of the
    table, and no other. *)
Theorem known_views (view : str) :
  is_Some (dict_get view CAMERA_VIEWS) <-> view ∈ preset_names.
Proof.
  split.
  - intros Hsome. destruct (decide (view ∈ preset_names)) as [|Hn]; [done|].
    apply dict_get_preset in Hn. rewrite Hn in Hsome. by destruct Hsome.
  - unfold preset_names. rewrite !elem_of_cons, elem_of_nil.
    intros [->|[->|[->|[->|[->|[->|[->|[]]]]]]]]; vm_compute; eauto.
Qed.

Transparent b64encode.

Lemma b64_symbol_char (i : N) : i < 64 -> b64_symbol (b64_char i) = true.
Proof. intros Hi. unfold b64_symbol. by rewrite b64_index_char. Qed.

(** X23.  The payload of a render is plain base64: every character is
    one of the 64 of the alphabet or the padding, and [n] bytes give
    four characters for every three bytes, the last group padded. *)
Theorem b64encode_shape (data : bytes) :
  Forall (fun c => b64_symbol c = true) (b64encode data) /\
  length (b64encode data) = (4 * ((length data + 2) / 3))%nat.
Proof.
  induction data as [|a|a b|a b c rest [IHs IHl]] using bytes_ind3.
  - split; [constructor | reflexivity].
  - pose proof (sextets_1_ok _ (byte_below a)) as Ha.
    unfold sextets_1 in Ha. split_checks Ha.
    split; [|reflexivity]. cbn [b64encode].
    repeat constructor; by apply b64_symbol_char.
  - pose proof (sextets_1_ok _ (byte_below b)) as Hb.
    pose proof (sextets_1_ok _ (byte_below a)) as Ha.
    pose proof (sextets_2_ok _ _ (byte_below a) (byte_below b)) as Hab.
    unfold sextets_1 in Ha, Hb. unfold sextets_2 in Hab.
    split_checks Ha. split_checks Hb. split_checks Hab.
    split; [|reflexivity]. cbn [b64encode].
    repeat constructor; by apply b64_symbol_char.
  - pose proof (sextets_1_ok _ (byte_below a)) as Ha.
    pose proof (sextets_1_ok _ (byte_below c)) as Hc.
    pose proof (sextets_2_ok _ _ (byte_below a) (byte_below b)) as Hab.
    pose proof (sextets_2_ok _ _ (byte_below b) (byte_below c)) as Hbc.
    unfold sextets_1 in Ha, Hc. unfold sextets_2 in Hab, Hbc.
    split_checks Ha. split_checks Hc. split_checks Hab. split_checks Hbc.
    split.
    + cbn [b64encode]. repeat (constructor; [by apply b64_symbol_char|]).
      exact IHs.
    + cbn [b64encode length]. rewrite IHl.
      replace (S (S (S (length rest))) + 2)%nat
        with (1 * 3 + (length rest + 2))%nat by lia.
      rewrite Nat.div_add_l by lia. lia.
Qed.

Opaque b64encode.

Lemma cleanup_refused E p w d msg :
  files w !! p = Some d ->
  unlink_err E p = Some msg ->
  cleanup E p w
  = (Ok tt,
     add_log WARNING (py "Failed to cleanup " ++ p ++ py ": " ++ msg) w).
Proof.
  intros Hp Hu. unfold cleanup. run_tool. rewrite Hp. cbn.
  by rewrite Hp, Hu.
Qed.

(** X24.  A cleanup that fails is logged, not reported: when the
    temporary script of an export cannot be removed, the log gets the
    warning "Failed to cleanup <path>: <error>", the file stays, and the
    answer is the one the compiler's end calls for. *)
Theorem export_cleanup_refused E filename w data returncode stderr fs d msg :
  ~ whitespace_only (script_content w) ->
  write_text E (scad_path E) (script_content w) = inl data ->
  openscad E (export_cmd E filename) 60 (<[scad_path E := data]> (files w))
  = (Completed returncode stderr, fs) ->
  fs !! scad_path E = Some d ->
  unlink_err E (scad_path E) = Some msg ->
  (WARNING, py "Failed to cleanup " ++ scad_path E ++ py ": " ++ msg)
  ∈ log (export_model_to_stl E filename w).2 /\
  files (export_model_to_stl E filename w).2 !! scad_path E = Some d /\
  (returncode <> 0%Z ->
   (export_model_to_stl E filename w).1
   = Ok (py "OpenSCAD export error: " ++ stderr)).
Proof.
  intros Hs Hw Hrun Hd Hu. split; [|split].
  - apply strip_not_empty in Hs.
    run_tool. rewrite Hs. fold (scad_path E). rewrite Hw.
    rewrite try_finally_cleanup1. cbn [files add_log set_files].
    fold (export_cmd E filename) (stl_path E filename). rewrite Hrun.
    cbn -[cleanup].
    destruct (returncode =? 0)%Z; cbn -[cleanup].
    + destruct (fs !! stl_path E filename) eqn:Hstl; cbn -[cleanup];
        rewrite ?Hstl; cbn -[cleanup];
        rewrite (cleanup_refused E _ _ d msg) by done; cbn;
        rewrite !elem_of_app, !list_elem_of_singleton; auto.
    + rewrite (cleanup_refused E _ _ d msg) by done; cbn;
        rewrite !elem_of_app, !list_elem_of_singleton; auto.
  - destruct (export_run E filename w data _ fs Hs Hw Hrun)
      as (_ & _ & -> & _).
    unfold removed. by rewrite Hd, Hu.
  - intros Hrc.
    destruct (export_run E filename w data _ fs Hs Hw Hrun) as (-> & _).
    cbn [export_result]. apply Z.eqb_neq in Hrc. by rewrite Hrc.
Qed.

Lemma export_cleanup_refused_witness :
  (WARNING, py "Failed to cleanup " ++ scad_path E_unlink_denied ++ py ": "
            ++ py "[Errno 13] Permission denied")
  ∈ log (export_model_to_stl E_unlink_denied (py "part") cube_world).2.
Proof.
  apply (export_cleanup_refused E_unlink_denied (py "part") cube_world
           (omap Byte.of_N (py "cube(10);")) 0 []
           (<[stl_path E_unlink_denied (py "part") := placeholder]>
              (<[scad_path E_unlink_denied
                 := omap Byte.of_N (py "cube(10);")]> ∅))
           (omap Byte.of_N (py "cube(10);"))
           (py "[Errno 13] Permission denied")).
  - apply strip_not_empty. reflexivity.
  - reflexivity.
  - reflexivity.
  - by vm_compute.
  - reflexivity.
Defined.

(** ** Tools in sequence *)

(** X25.  Rendering, exporting and saving do not disturb what
    [show_openscad_script] returns: the text shown after any of them,
    on any branch, is the text shown before. *)
Theorem show_undisturbed E view filename w :
  (show_openscad_script (view_render E view w).2).1
  = (show_openscad_script w).1 /\
  (show_openscad_script (export_model_to_stl E filename w).2).1
  = (show_openscad_script w).1 /\
  (show_openscad_script (save_openscad_script E filename w).2).1
  = (show_openscad_script w).1.
Proof.
  rewrite !show_openscad_script_result. cbn.
  by rewrite view_render_script, export_model_to_stl_script,
    save_openscad_script_script.
Qed.

(** X26.  What is saved is what was created: after
    [create_openscad_script] of a text that is not blank,
    [save_openscad_script] stores at its destination the bytes that text
    encodes to, whether or not the state file could be written. *)
Theorem create_then_save E text filename w data :
  ~ whitespace_only text ->
  open_w E (script_path E filename) = None ->
  write_text E (script_path E filename) text = inl data ->
  files (save_openscad_script E filename
           (create_openscad_script E text w).2).2
  !! script_path E filename = Some data.
Proof.
  intros Hs Ho Hw.
  destruct (create_openscad_script_result E text w) as [_ Hscript].
  rewrite (save_written E filename _ data).
  - cbn. by rewrite lookup_insert_eq.
  - by rewrite Hscript.
  - done.
  - by rewrite Hscript.
Qed.

Lemma create_then_save_witness :
  files (save_openscad_script E_save_denied (py "part")
           (create_openscad_script E_save_denied (py "cube(10);")
              empty_world).2).2
  !! script_path E_save_denied (py "part")
  = Some (omap Byte.of_N (py "cube(10);")).
Proof.
  apply (create_then_save E_save_denied (py "cube(10);") (py "part")
           empty_world (omap Byte.of_N (py "cube(10);"))).
  - apply strip_not_empty. reflexivity.
  - reflexivity.
  - reflexivity.
Defined.

(** X27.  After a zero exit [export_model_to_stl] checks that a file is
    at the destination, not that the compiler wrote it: when a mesh of
    an earlier export is there and the compiler exits with status zero
    leaving the files as they were, the export is reported as successful,
    with the size of the old mesh. *)
Theorem export_stale_mesh E filename w data stderr old :
  ~ whitespace_only (script_content w) ->
  write_text E (scad_path E) (script_content w) = inl data ->
  openscad E (export_cmd E filename) 60 (<[scad_path E := data]> (files w))
  = (Completed 0 stderr, <[scad_path E := data]> (files w)) ->
  files w !! stl_path E filename = Some old ->
  stl_path E filename <> scad_path E ->
  (export_model_to_stl E filename w).1
  = Ok (py "STL exported successfully to " ++ stl_path E filename
        ++ py " (" ++ str_of_nat (length old) ++ py " bytes)").
Proof.
  intros Hs Hw Hrun Hold Hne.
  destruct (export_run E filename w data _ _ Hs Hw Hrun) as (-> & _).
  cbn [export_result Z.eqb]. by rewrite lookup_insert_ne, Hold.
Qed.

Lemma export_stale_mesh_witness :
  let w := set_files {[ py "/work/part.stl" := [x01; x02; x03; x04; x05] ]}
             cube_world in
  (export_model_to_stl E_no_output (py "part") w).1
  = Ok (py "STL exported successfully to " ++ stl_path E_no_output (py "part")
        ++ py " (" ++ str_of_nat 5 ++ py " bytes)").
Proof.
  apply (export_stale_mesh E_no_output (py "part")
           (set_files {[ py "/work/part.stl" := [x01; x02; x03; x04; x05] ]}
              cube_world)
           (omap Byte.of_N (py "cube(10);")) []
           [x01; x02; x03; x04; x05]).
  - apply strip_not_empty. reflexivity.
  - reflexivity.
  - reflexivity.
  - by vm_compute.
  - intros H. vm_compute in H. discriminate.
Defined.
